(** * ServerChan notifier: a shallow embedding of [serverchan_notifier.py]

    The module is a thin client over one HTTP endpoint.  Its behaviour is
    embedded as state-passing code in a small state-and-exception monad:
    the state records the requests handed to [requests.post], the records
    handed to the logger, the clock reads, the object allocator and the
    module-level [_global_notifier]; the HTTP transport and the clock are an
    oracle [Env] the code cannot influence.  [send_async] only starts a
    daemon thread that runs [send]; threads are not part of the embedding. *)

From Stdlib Require Import List ZArith NArith String Ascii Bool Floats Lia.
Import ListNotations.

Set Implicit Arguments.
Set Warnings "-register-all".

(* ================================================================= *)
(** ** Python strings *)

(** A Python [str] is a sequence of Unicode code points; slicing and [len]
    count code points, not bytes. *)
Module PyStr.

Definition pychar := N.
Definition pystr := list pychar.

Local Open Scope N_scope.

(** Reads the UTF-8 bytes of a literal of this file as code points.  It is
    only ever applied to well-formed literals. *)
Fixpoint utf8_decode (fuel : nat) (bs : list N) : pystr :=
  match fuel with
  | O => []
  | S fuel' =>
    match bs with
    | [] => []
    | b0 :: r0 =>
      if b0 <? 128 then b0 :: utf8_decode fuel' r0
      else if b0 <? 224 then
        match r0 with
        | b1 :: r1 => ((b0 - 192) * 64 + (b1 - 128)) :: utf8_decode fuel' r1
        | _ => []
        end
      else if b0 <? 240 then
        match r0 with
        | b1 :: b2 :: r2 =>
          ((b0 - 224) * 4096 + (b1 - 128) * 64 + (b2 - 128))
            :: utf8_decode fuel' r2
        | _ => []
        end
      else
        match r0 with
        | b1 :: b2 :: b3 :: r3 =>
          ((b0 - 240) * 262144 + (b1 - 128) * 4096 + (b2 - 128) * 64
           + (b3 - 128)) :: utf8_decode fuel' r3
        | _ => []
        end
    end
  end.

Definition lit (s : string) : pystr :=
  let bs := map N_of_ascii (list_ascii_of_string s) in
  utf8_decode (List.length bs) bs.

Fixpoint eqb (s t : pystr) : bool :=
  match s, t with
  | [], [] => true
  | c :: s', d :: t' => (c =? d) && eqb s' t'
  | _, _ => false
  end.

(** [s[:n]] *)
Definition slice_to (n : nat) (s : pystr) : pystr := firstn n s.

(** [bool(s)]: a string is truthy when it is not empty. *)
Definition truthy (s : pystr) : bool :=
  match s with [] => false | _ :: _ => true end.

(** [bool(x)] for an [Optional[str]]: [None] and [""] are falsy. *)
Definition opt_truthy (o : option pystr) : bool :=
  match o with Some s => truthy s | None => false end.

(** [a or b] for an [Optional[str]] left operand. *)
Definition or_else (o : option pystr) (d : pystr) : pystr :=
  match o with
  | Some s => if truthy s then s else d
  | None => d
  end.

(** Decimal digits of a natural number. *)
Fixpoint uint_chars (d : Decimal.uint) : pystr :=
  match d with
  | Decimal.Nil => []
  | Decimal.D0 r => 48 :: uint_chars r
  | Decimal.D1 r => 49 :: uint_chars r
  | Decimal.D2 r => 50 :: uint_chars r
  | Decimal.D3 r => 51 :: uint_chars r
  | Decimal.D4 r => 52 :: uint_chars r
  | Decimal.D5 r => 53 :: uint_chars r
  | Decimal.D6 r => 54 :: uint_chars r
  | Decimal.D7 r => 55 :: uint_chars r
  | Decimal.D8 r => 56 :: uint_chars r
  | Decimal.D9 r => 57 :: uint_chars r
  end.

Definition decimal (n : N) : pystr := uint_chars (N.to_uint n).

(** Decimal digits, left-padded with ['0'] to [width] characters. *)
Definition zero_pad (width : nat) (n : N) : pystr :=
  let ds := decimal n in
  repeat 48 (width - List.length ds) ++ ds.

End PyStr.
Import PyStr.

(* ================================================================= *)
(** ** Python values that cross the HTTP boundary *)

(** What [json.loads] can produce.  Integers are unbounded, floats are
    binary64.  A [dict] keeps its keys in insertion order. *)
Inductive json : Type :=
| JNull
| JBool (b : bool)
| JInt (z : Z)
| JFloat (f : float)
| JStr (s : pystr)
| JList (l : list json)
| JDict (d : list (pystr * json)).

(** [d.get(k)] on the entries of a dict. *)
Fixpoint dict_get {V : Type} (d : list (pystr * V)) (k : pystr) : option V :=
  match d with
  | [] => None
  | (k', v) :: d' => if PyStr.eqb k' k then Some v else dict_get d' k
  end.

(** [d[k] = v]: replaces the value of an existing key, else appends. *)
Fixpoint dict_set {V : Type} (d : list (pystr * V)) (k : pystr) (v : V)
  : list (pystr * V) :=
  match d with
  | [] => [(k, v)]
  | (k', v') :: d' =>
    if PyStr.eqb k' k then (k', v) :: d' else (k', v') :: dict_set d' k v
  end.

(** [v == 0] as Python evaluates it on a decoded JSON value: [0], [0.0],
    [-0.0] and [False] are equal to [0]; nothing else is. *)
Definition py_eq_zero (v : json) : bool :=
  match v with
  | JInt z => (z =? 0)%Z
  | JFloat f => PrimFloat.eqb f 0%float
  | JBool b => negb b
  | _ => false
  end.

(** [type(v).__name__] *)
Definition type_name (v : json) : pystr :=
  match v with
  | JNull => lit "NoneType"
  | JBool _ => lit "bool"
  | JInt _ => lit "int"
  | JFloat _ => lit "float"
  | JStr _ => lit "str"
  | JList _ => lit "list"
  | JDict _ => lit "dict"
  end.

(* ================================================================= *)
(** ** Exceptions *)

(** The exception classes that can reach the handlers of this module.
    [JSONDecodeError] is [json.JSONDecodeError]; [RequestsJSONDecodeError] is
    [requests.exceptions.JSONDecodeError], which inherits from both
    [InvalidJSONError] and [json.JSONDecodeError].  [UserError] stands for
    any other direct subclass of [Exception]. *)
Inductive exc_class : Set :=
| BaseException | SystemExit | KeyboardInterrupt
| Exception
| ValueError | KeyError | TypeError | AttributeError
| JSONDecodeError
| RequestException | HTTPError | ConnectionError | Timeout
| InvalidJSONError | RequestsJSONDecodeError
| UserError.

Scheme Equality for exc_class.

(** The class itself followed by its ancestors among the classes above. *)
Definition mro (c : exc_class) : list exc_class :=
  match c with
  | BaseException => [BaseException]
  | SystemExit => [SystemExit; BaseException]
  | KeyboardInterrupt => [KeyboardInterrupt; BaseException]
  | Exception => [Exception; BaseException]
  | ValueError => [ValueError; Exception; BaseException]
  | KeyError => [KeyError; Exception; BaseException]
  | TypeError => [TypeError; Exception; BaseException]
  | AttributeError => [AttributeError; Exception; BaseException]
  | JSONDecodeError => [JSONDecodeError; ValueError; Exception; BaseException]
  | RequestException => [RequestException; Exception; BaseException]
  | HTTPError => [HTTPError; RequestException; Exception; BaseException]
  | ConnectionError =>
      [ConnectionError; RequestException; Exception; BaseException]
  | Timeout => [Timeout; RequestException; Exception; BaseException]
  | InvalidJSONError =>
      [InvalidJSONError; RequestException; Exception; BaseException]
  | RequestsJSONDecodeError =>
      [RequestsJSONDecodeError; InvalidJSONError; RequestException;
       JSONDecodeError; ValueError; Exception; BaseException]
  | UserError => [UserError; Exception; BaseException]
  end.

(** A raised exception: its class and [str(e)]. *)
Record PyExc : Type := mkExc { exc_cls : exc_class; exc_str : pystr }.

Definition isinstance (e : PyExc) (c : exc_class) : bool :=
  existsb (exc_class_beq c) (mro (exc_cls e)).

(** The result of evaluating something that may raise. *)
Inductive outcome (A : Type) : Type :=
| Ok (a : A)
| Raise (e : PyExc).
Arguments Ok {A} a.
Arguments Raise {A} e.

(* ================================================================= *)
(** ** The HTTP transport and the clock *)

(** The keyword arguments of one [requests.post] call. *)
Record Request : Type := mkRequest {
  req_url : pystr;
  req_data : list (pystr * pystr);
  req_timeout : Z;
  req_headers : list (pystr * pystr);
  req_proxies : list (pystr * pystr)
}.

(** A [requests.Response] as far as [send] looks at it. *)
Record Response : Type := mkResponse {
  status_code : Z;
  reason : pystr;
  resp_url : pystr;
  resp_json : outcome json     (* what [response.json()] does *)
}.

(** [datetime.now()] *)
Record datetime : Type := mkDatetime {
  year : N; month : N; day : N; hour : N; minute : N; second : N
}.

(** What the module cannot influence: the answer of the network to a request
    (it may depend on the requests made before), and the readings of the two
    clocks, indexed by the number of earlier clock reads. *)
Record Env : Type := mkEnv {
  env_post : list Request -> Request -> outcome Response;
  env_time : nat -> float;
  env_now : nat -> datetime
}.

(** [logger.info / warning / error]: the level, the literal part of the
    message and what was interpolated into it. *)
Inductive log_arg : Type :=
| ArgJson (v : json)
| ArgNone
| ArgExc (e : PyExc).

Inductive log_level : Set := INFO | WARNING | ERROR.

Record log_record : Type := mkLog {
  log_level_of : log_level;
  log_text : pystr;
  log_interp : log_arg
}.

(* ================================================================= *)
(** ** Formatting *)

(** [f"{x:.2f}"]: the exact value of the float, rounded to two decimals,
    ties to even. *)
Definition hundredths (m : positive) (e : Z) : N :=
  let n := (Z.pos m * 100)%Z in
  if (0 <=? e)%Z then Z.to_N (n * 2 ^ e)
  else
    let d := (2 ^ (- e))%Z in
    let q := (n / d)%Z in
    let r := (n mod d)%Z in
    let up := ((d <? 2 * r) || ((2 * r =? d) && Z.odd q))%Z in
    Z.to_N (if up then q + 1 else q)%Z.

Definition format_2f (x : float) : pystr :=
  let sign (s : bool) := if s then lit "-" else [] in
  match Prim2SF x with
  | S754_nan => lit "nan"
  | S754_infinity s => sign s ++ lit "inf"
  | S754_zero s => sign s ++ lit "0.00"
  | S754_finite s m e =>
    let h := hundredths m e in
    sign s ++ decimal (h / 100) ++ lit "." ++ zero_pad 2 (h mod 100)
  end.

(** [d.strftime('%Y-%m-%d %H:%M:%S')], for years of four digits. *)
Definition strftime (d : datetime) : pystr :=
  zero_pad 4 (year d) ++ lit "-" ++ zero_pad 2 (month d) ++ lit "-"
  ++ zero_pad 2 (day d) ++ lit " " ++ zero_pad 2 (hour d) ++ lit ":"
  ++ zero_pad 2 (minute d) ++ lit ":" ++ zero_pad 2 (second d).

(* ================================================================= *)
(** ** State and effects *)

(** An instance of [ServerChanNotifier].  Its attributes are assigned once,
    in [__init__]; [obj_id] is the identity of the object. *)
Record Notifier : Type := mkNotifier {
  obj_id : nat;
  sendkey : pystr;
  default_channel : option pystr;
  api_url : pystr
}.

Record World : Type := mkWorld {
  sent : list Request;          (* calls of [requests.post], oldest first *)
  log : list log_record;        (* records given to [logger], oldest first *)
  ticks : nat;                  (* clock reads so far *)
  next_id : nat;                (* objects allocated so far *)
  _global_notifier : option Notifier
}.

(** The state when the module has just been imported. *)
Definition initial_world : World :=
  {| sent := []; log := []; ticks := 0; next_id := 0;
     _global_notifier := None |}.

Definition M (A : Type) : Type := World -> outcome A * World.

Definition ret {A} (a : A) : M A := fun w => (Ok a, w).

Definition bind {A B} (m : M A) (k : A -> M B) : M B :=
  fun w =>
    match m w with
    | (Ok a, w') => k a w'
    | (Raise e, w') => (Raise e, w')
    end.

Definition raise {A} (e : PyExc) : M A := fun w => (Raise e, w).

Definition lift {A} (o : outcome A) : M A := fun w => (o, w).

Notation "x <- m ;; k" := (bind m (fun x => k))
  (at level 61, m at next level, right associativity).
Notation "m ;;; k" := (bind m (fun _ => k))
  (at level 61, right associativity).

(** [try: body  except C1 as e: h1  except C2 as e: h2 ...]: the first clause
    whose class the exception is an instance of handles it; with no such
    clause the exception goes on. *)
Definition try_except {A} (body : M A)
    (clauses : list (exc_class * (PyExc -> M A))) : M A :=
  fun w =>
    match body w with
    | (Ok a, w') => (Ok a, w')
    | (Raise e, w') =>
      match find (fun c => isinstance e (fst c)) clauses with
      | Some c => snd c e w'
      | None => (Raise e, w')
      end
    end.

(** The single-field updates of the state. *)
Definition add_log (r : log_record) (w : World) : World :=
  {| sent := sent w; log := log w ++ [r]; ticks := ticks w;
     next_id := next_id w; _global_notifier := _global_notifier w |}.

Definition add_sent (r : Request) (w : World) : World :=
  {| sent := sent w ++ [r]; log := log w; ticks := ticks w;
     next_id := next_id w; _global_notifier := _global_notifier w |}.

Definition tick (w : World) : World :=
  {| sent := sent w; log := log w; ticks := S (ticks w);
     next_id := next_id w; _global_notifier := _global_notifier w |}.

Definition alloc (w : World) : World :=
  {| sent := sent w; log := log w; ticks := ticks w;
     next_id := S (next_id w); _global_notifier := _global_notifier w |}.

Definition store_global (n : Notifier) (w : World) : World :=
  {| sent := sent w; log := log w; ticks := ticks w;
     next_id := next_id w; _global_notifier := Some n |}.

Definition logger (lvl : log_level) (text : pystr) (arg : log_arg) : M unit :=
  fun w => (Ok tt, add_log (mkLog lvl text arg) w).

Section WithEnv.

Variable env : Env.

(** [requests.post(url, data=..., timeout=..., headers=..., proxies=...)] *)
Definition requests_post (r : Request) : M Response :=
  fun w => (env_post env (sent w) r, add_sent r w).

(** [time.time()] *)
Definition time_time : M float :=
  fun w => (Ok (env_time env (ticks w)), tick w).

(** [datetime.now()] *)
Definition datetime_now : M datetime :=
  fun w => (Ok (env_now env (ticks w)), tick w).

End WithEnv.

(* ================================================================= *)
(** ** The parts of [requests] and of Python that [send] calls *)

Definition nl : pystr := [10%N].
Definition quote : pystr := Eval vm_compute in lit "'".

(** [response.raise_for_status()] *)
Definition raise_for_status (r : Response) : M unit :=
  let msg (kind : pystr) :=
    decimal (Z.to_N (status_code r)) ++ kind ++ reason r
    ++ lit " for url: " ++ resp_url r in
  if ((400 <=? status_code r) && (status_code r <? 500))%Z then
    raise (mkExc HTTPError (msg (lit " Client Error: ")))
  else if ((500 <=? status_code r) && (status_code r <? 600))%Z then
    raise (mkExc HTTPError (msg (lit " Server Error: ")))
  else ret tt.

(** [response.json()] *)
Definition response_json (r : Response) : M json := lift (resp_json r).

(** [d.get(k)] on a dict of JSON values: [None] for a missing key. *)
Definition dict_get_or_none (d : list (pystr * json)) (k : pystr) : json :=
  match dict_get d k with Some x => x | None => JNull end.

(** [v.get(k)]; only a dict has the method. *)
Definition py_get (v : json) (k : pystr) : M json :=
  match v with
  | JDict d => ret (dict_get_or_none d k)
  | _ =>
    raise (mkExc AttributeError
             (quote ++ type_name v ++ quote
              ++ lit " object has no attribute 'get'"))
  end.

(** [v[k]] for a string [k] (messages as CPython 3.11 words them). *)
Definition py_getitem (v : json) (k : pystr) : M json :=
  match v with
  | JDict d =>
    match dict_get d k with
    | Some x => ret x
    | None => raise (mkExc KeyError (quote ++ k ++ quote))
    end
  | JList _ =>
    raise (mkExc TypeError
             (lit "list indices must be integers or slices, not str"))
  | JStr _ =>
    raise (mkExc TypeError (lit "string indices must be integers, not 'str'"))
  | _ =>
    raise (mkExc TypeError
             (quote ++ type_name v ++ quote
              ++ lit " object is not subscriptable"))
  end.

(** [if o: then_(o) else: else_] for an [Optional[str]]. *)
Definition if_truthy {X} (o : option pystr) (then_ : pystr -> X) (else_ : X)
  : X :=
  match o with
  | Some s => if truthy s then then_ s else else_
  | None => else_
  end.

(* ================================================================= *)
(** ** [class ServerChanNotifier] *)

Definition k_title : pystr := Eval vm_compute in lit "title".
Definition k_desp : pystr := Eval vm_compute in lit "desp".
Definition k_short : pystr := Eval vm_compute in lit "short".
Definition k_channel : pystr := Eval vm_compute in lit "channel".
Definition k_noip : pystr := Eval vm_compute in lit "noip".
Definition k_openid : pystr := Eval vm_compute in lit "openid".
Definition k_code : pystr := Eval vm_compute in lit "code".
Definition k_message : pystr := Eval vm_compute in lit "message".
Definition k_data : pystr := Eval vm_compute in lit "data".
Definition k_pushid : pystr := Eval vm_compute in lit "pushid".

(** The value sent for [noip]. *)
Definition noip_marker : pystr := Eval vm_compute in lit "1".

(** [ServerChanNotifier(sendkey, default_channel)] *)
Definition ServerChanNotifier (sendkey : pystr)
    (default_channel : option pystr) : M Notifier :=
  fun w =>
    (Ok {| obj_id := next_id w; sendkey := sendkey;
           default_channel := default_channel;
           api_url := lit "https://sctapi.ftqq.com/" ++ sendkey
                      ++ lit ".send" |},
     alloc w).

(** Lines 60-75 of [send]: the form fields. *)
Definition build_payload (self : Notifier) (title : pystr)
    (desp short channel : option pystr) (noip : bool)
    (openid : option pystr) : list (pystr * pystr) :=
  let payload := [(k_title, slice_to 32 title)] in
  let payload :=
    if_truthy desp (fun d => dict_set payload k_desp d) payload in
  let payload :=
    if_truthy short (fun s => dict_set payload k_short (slice_to 64 s))
      payload in
  let payload :=
    if_truthy channel (fun c => dict_set payload k_channel c)
      (if_truthy (default_channel self)
         (fun d => dict_set payload k_channel d) payload) in
  let payload :=
    if noip then dict_set payload k_noip noip_marker else payload in
  let payload :=
    if_truthy openid (fun o => dict_set payload k_openid o) payload in
  payload.

(** The request [send] hands to [requests.post]. *)
Definition send_request (self : Notifier) (title : pystr)
    (desp short channel : option pystr) (noip : bool)
    (openid : option pystr) (timeout : Z) : Request :=
  {| req_url := api_url self;
     req_data := build_payload self title desp short channel noip openid;
     req_timeout := timeout;
     req_headers := [(lit "User-Agent", lit "ServerChan-Python-SDK/1.0")];
     req_proxies := [] |}.

(** [{"code": -1, "message": msg}] *)
Definition failure (msg : pystr) : json :=
  JDict [(k_code, JInt (-1)); (k_message, JStr msg)].

Definition msg_network : pystr := Eval vm_compute in lit "网络请求错误: ".
Definition msg_decode : pystr := Eval vm_compute in lit "JSON解析错误: ".
Definition msg_unknown : pystr := Eval vm_compute in lit "未知错误: ".
Definition msg_pushed : pystr :=
  Eval vm_compute in lit "Server酱通知发送成功。pushid: ".
Definition msg_rejected : pystr :=
  Eval vm_compute in lit "Server酱通知发送失败: ".

Section Send.

Variable env : Env.

(** Lines 78-93: the body of the [try]. *)
Definition send_try (r : Request) : M json :=
  response <- requests_post env r ;;
  raise_for_status response ;;;
  result <- response_json response ;;
  code <- py_get result k_code ;;
  (if py_eq_zero code then
     data <- py_getitem result k_data ;;
     pushid <- py_getitem data k_pushid ;;
     logger INFO msg_pushed (ArgJson pushid)
   else
     message <- py_get result k_message ;;
     logger WARNING msg_rejected (ArgJson message)) ;;;
  ret result.

(** One [except C as e:] clause of [send]. *)
Definition send_except (prefix : pystr) (e : PyExc) : M json :=
  logger ERROR prefix (ArgExc e) ;;;
  ret (failure (prefix ++ exc_str e)).

Definition send (self : Notifier) (title : pystr)
    (desp short channel : option pystr) (noip : bool)
    (openid : option pystr) (timeout : Z) : M json :=
  try_except
    (send_try (send_request self title desp short channel noip openid
                 timeout))
    [ (RequestException, send_except msg_network);
      (JSONDecodeError, send_except msg_decode);
      (Exception, send_except msg_unknown) ].

End Send.

(** The keyword arguments the templates pass on to [send] as [**kwargs],
    with the defaults of [send] for those not given. *)
Record SendKwargs : Type := mkKwargs {
  kw_short : option pystr;
  kw_channel : option pystr;
  kw_noip : bool;
  kw_openid : option pystr;
  kw_timeout : Z
}.

Definition no_kwargs : SendKwargs :=
  {| kw_short := None; kw_channel := None; kw_noip := false;
     kw_openid := None; kw_timeout := 10 |}.

Definition placeholder_error : pystr := Eval vm_compute in lit "未知错误".

Section Templates.

Variable env : Env.

(** [self.send(title, desp, **kwargs)] *)
Definition send_kw (self : Notifier) (title desp : pystr)
    (kw : SendKwargs) : M json :=
  send env self title (Some desp) (kw_short kw) (kw_channel kw)
    (kw_noip kw) (kw_openid kw) (kw_timeout kw).

Definition success_title (task_name : pystr) : pystr :=
  lit "✅ " ++ task_name ++ lit " 执行成功".

Definition success_desp (task_name now : pystr)
    (execution_time : option float) (additional_info : option pystr)
  : pystr :=
  let desp :=
    nl ++ lit "## 🎉 任务执行成功" ++ nl ++ nl
    ++ lit "**任务名称**: " ++ task_name ++ nl ++ nl
    ++ lit "**完成时间**: " ++ now ++ nl in
  let desp :=
    match execution_time with
    | Some t => desp ++ nl ++ lit "**执行时长**: " ++ format_2f t ++ lit " 秒"
    | None => desp
    end in
  if_truthy additional_info
    (fun info => desp ++ nl ++ lit "**详细信息**:" ++ nl ++ info) desp.

Definition notify_success (self : Notifier) (task_name : pystr)
    (execution_time : option float) (additional_info : option pystr)
    (kw : SendKwargs) : M json :=
  let title := success_title task_name in
  now <- datetime_now env ;;
  let desp :=
    success_desp task_name (strftime now) execution_time additional_info in
  send_kw self title desp kw.

Definition error_title (task_name : pystr) : pystr :=
  lit "❌ " ++ task_name ++ lit " 执行失败".

Definition error_desp (task_name now error_message : pystr)
    (execution_time : option float) : pystr :=
  let desp :=
    nl ++ lit "## ⚠️ 任务执行失败" ++ nl ++ nl
    ++ lit "**任务名称**: " ++ task_name ++ nl ++ nl
    ++ lit "**失败时间**: " ++ now ++ nl ++ nl
    ++ lit "**错误信息**: " ++ error_message ++ nl in
  match execution_time with
  | Some t => desp ++ nl ++ lit "**执行时长**: " ++ format_2f t ++ lit " 秒"
  | None => desp
  end.

Definition notify_error (self : Notifier) (task_name error_message : pystr)
    (execution_time : option float) (kw : SendKwargs) : M json :=
  let title := error_title task_name in
  now <- datetime_now env ;;
  let desp :=
    error_desp task_name (strftime now) error_message execution_time in
  send_kw self title desp kw.

Definition notify_completion (self : Notifier) (task_name : pystr)
    (success : bool) (execution_time : option float)
    (message : option pystr) (kw : SendKwargs) : M json :=
  if success then
    notify_success self task_name execution_time message kw
  else
    notify_error self task_name (or_else message placeholder_error)
      execution_time kw.

End Templates.

(* ================================================================= *)
(** ** [task_notifier] *)

(** A Python callable: its [__name__] when it has one (a function has one;
    a [functools.partial] or an instance with [__call__] has none), the name
    of its type as error messages print it, and what a call does. *)
Record Callable (A R : Type) : Type := mkCallable {
  fn_name : option pystr;
  fn_type : pystr;
  fn_call : A -> M R
}.

(** [func.__name__] *)
Definition getattr_name {A R} (func : Callable A R) : outcome pystr :=
  match fn_name func with
  | Some n => Ok n
  | None =>
    Raise (mkExc AttributeError
             (quote ++ fn_type func ++ quote
              ++ lit " object has no attribute '__name__'"))
  end.

(** [task_name or func.__name__]: the attribute is read only when
    [task_name] is [None] or empty. *)
Definition resolve_task_name {A R} (task_name : option pystr)
    (func : Callable A R) : outcome pystr :=
  if_truthy task_name Ok (getattr_name func).

Section Decorator.

Variable env : Env.
Variables A R : Type.

(** The [wrapper] that [task_notifier(sendkey, task_name)(func)] returns,
    called with the arguments [args] for [func]. *)
Definition wrapper (sendkey : pystr) (task_name : option pystr)
    (func : Callable A R) (args : A) : M R :=
  notifier <- ServerChanNotifier sendkey None ;;
  actual_task_name <- lift (resolve_task_name task_name func) ;;
  start_time <- time_time env ;;
  try_except
    (result <- fn_call func args ;;
     end_time <- time_time env ;;
     let execution_time := PrimFloat.sub end_time start_time in
     name <- lift (getattr_name func) ;;
     notify_success env notifier actual_task_name (Some execution_time)
       (Some (lit "函数 " ++ name ++ lit " 执行成功")) no_kwargs ;;;
     ret result)
    [ (Exception,
       fun e =>
         end_time <- time_time env ;;
         let execution_time := PrimFloat.sub end_time start_time in
         notify_error env notifier actual_task_name (exc_str e)
           (Some execution_time) no_kwargs ;;;
         raise e) ].

(** [@wraps(func)] gives the wrapper the name of [func] when [func] has
    one; otherwise the wrapper keeps its own. *)
Definition task_notifier (sendkey : pystr) (task_name : option pystr)
    (func : Callable A R) : Callable A R :=
  {| fn_name :=
       Some (match fn_name func with Some n => n | None => lit "wrapper" end);
     fn_type := lit "function";
     fn_call := wrapper sendkey task_name func |}.

End Decorator.

(* ================================================================= *)
(** ** The module-level notifier *)

Definition set_global (n : Notifier) : M unit :=
  fun w => (Ok tt, store_global n w).

Definition init_global_notifier (sendkey : pystr)
    (default_channel : option pystr) : M Notifier :=
  n <- ServerChanNotifier sendkey default_channel ;;
  set_global n ;;;
  ret n.

Definition msg_uninitialised : pystr :=
  Eval vm_compute in
    lit "全局通知器未初始化，请先调用 init_global_notifier()".

Definition get_global_notifier : M Notifier :=
  fun w =>
    match _global_notifier w with
    | None => (Raise (mkExc ValueError msg_uninitialised), w)
    | Some n => (Ok n, w)
    end.

(** [quick_notify(sendkey, title, message)] *)
Definition quick_notify (env : Env) (sendkey title message : pystr)
  : M json :=
  notifier <- ServerChanNotifier sendkey None ;;
  send env notifier title (Some message) None None false None 10.

(* ================================================================= *)
(** ** Programs that use the module *)

(** One call of a caller into the public interface of the module. *)
Inductive api_call : Type :=
| CallConstruct (sendkey : pystr) (default_channel : option pystr)
| CallSend (self : Notifier) (title : pystr)
    (desp short channel : option pystr) (noip : bool)
    (openid : option pystr) (timeout : Z)
| CallNotifySuccess (self : Notifier) (task_name : pystr)
    (execution_time : option float) (additional_info : option pystr)
    (kw : SendKwargs)
| CallNotifyError (self : Notifier) (task_name error_message : pystr)
    (execution_time : option float) (kw : SendKwargs)
| CallNotifyCompletion (self : Notifier) (task_name : pystr) (success : bool)
    (execution_time : option float) (message : option pystr)
    (kw : SendKwargs)
| CallQuickNotify (sendkey title message : pystr)
| CallInit (sendkey : pystr) (default_channel : option pystr)
| CallGet.

Definition is_init (c : api_call) : bool :=
  match c with CallInit _ _ => true | _ => false end.

(** The state after one call, whatever it returned or raised. *)
Definition exec (env : Env) (c : api_call) (w : World) : World :=
  match c with
  | CallConstruct k d => snd (ServerChanNotifier k d w)
  | CallSend self t d s c n o tm => snd (send env self t d s c n o tm w)
  | CallNotifySuccess self t x i kw => snd (notify_success env self t x i kw w)
  | CallNotifyError self t m x kw => snd (notify_error env self t m x kw w)
  | CallNotifyCompletion self t b x m kw =>
      snd (notify_completion env self t b x m kw w)
  | CallQuickNotify k t m => snd (quick_notify env k t m w)
  | CallInit k d => snd (init_global_notifier k d w)
  | CallGet => snd (get_global_notifier w)
  end.

Definition run (env : Env) (cs : list api_call) (w : World) : World :=
  fold_left (fun w c => exec env c w) cs w.

(** The transport raises nothing but errors: whatever [requests.post] or
    [response.json()] raises is an instance of [Exception] (and not, say, a
    [KeyboardInterrupt]). *)
Definition raises_only_errors (env : Env) : Prop :=
  forall hist req,
    match env_post env hist req with
    | Raise e => isinstance e Exception = true
    | Ok resp =>
      match resp_json resp with
      | Raise e => isinstance e Exception = true
      | Ok _ => True
      end
    end.

(** [keeps f m]: running [m] does not change the part [f] of the state,
    whether [m] returns or raises. *)
Definition keeps {X A} (f : World -> X) (m : M A) : Prop :=
  forall w, f (snd (m w)) = f w.


(* ================================================================= *)
(** ** Sample environments and inputs *)

Definition sample_clock : nat -> float := fun _ => 0%float.
Definition sample_now : nat -> datetime :=
  fun _ => mkDatetime 2024 3 7 9 5 0.

(** The connection is refused. *)
Definition env_refused : Env :=
  {| env_post := fun _ _ =>
       Raise (mkExc ConnectionError (lit "Connection refused"));
     env_time := sample_clock; env_now := sample_now |}.

(** The provider answers every request with status 200 and [body]. *)
Definition env_answering (body : json) : Env :=
  {| env_post := fun _ r =>
       Ok {| status_code := 200; reason := lit "OK"; resp_url := req_url r;
             resp_json := Ok body |};
     env_time := sample_clock; env_now := sample_now |}.

(** [{"code": 1, "message": "invalid key"}] *)
Definition body_invalid_key : list (pystr * json) :=
  [(k_code, JInt 1); (k_message, JStr (lit "invalid key"))].

(** [{"code": 0, "message": ""}] *)
Definition body_accepted_bare : list (pystr * json) :=
  [(k_code, JInt 0); (k_message, JStr [])].

(** [{"code": 0, "message": "", "data": {"pushid": "42"}}] *)
Definition body_accepted : list (pystr * json) :=
  [(k_code, JInt 0); (k_message, JStr []);
   (k_data, JDict [(k_pushid, JStr (lit "42"))])].

(** The user interrupts the process while the request is under way. *)
Definition env_interrupted : Env :=
  {| env_post := fun _ _ => Raise (mkExc KeyboardInterrupt []);
     env_time := sample_clock; env_now := sample_now |}.


Definition fn_seven : Callable unit nat :=
  {| fn_name := Some (lit "job"); fn_type := lit "function";
     fn_call := fun _ => ret 7 |}.


Definition sample_notifier : Notifier :=
  {| obj_id := 0; sendkey := lit "KEY"; default_channel := Some (lit "9");
     api_url := lit "https://sctapi.ftqq.com/KEY.send" |}.

(** The provider answers every request with the given status and with
    what [response.json()] is to do. *)
Definition env_status (code : Z) (body : outcome json) : Env :=
  {| env_post := fun _ r =>
       Ok {| status_code := code; reason := lit "Unauthorized";
             resp_url := req_url r; resp_json := body |};
     env_time := sample_clock; env_now := sample_now |}.

(** A callable that calls [sys.exit()]. *)
Definition fn_exit : Callable unit nat :=
  {| fn_name := Some (lit "job"); fn_type := lit "function";
     fn_call := fun _ => raise (mkExc SystemExit []) |}.

(** The form fields [send] knows, in the order it assigns them. *)
Definition payload_keys : list pystr :=
  [k_title; k_desp; k_short; k_channel; k_noip; k_openid].

(** [k in d] *)
Definition has_key {V} (d : list (pystr * V)) (k : pystr) : bool :=
  match dict_get d k with Some _ => true | None => false end.

(** The fixed part of every request of [send]. *)
Definition user_agent : list (pystr * pystr) :=
  [(lit "User-Agent", lit "ServerChan-Python-SDK/1.0")].

(** [f"https://sctapi.ftqq.com/{sendkey}.send"] *)
Definition endpoint (sendkey : pystr) : pystr :=
  lit "https://sctapi.ftqq.com/" ++ sendkey ++ lit ".send".

(* ================================================================= *)
(** * Properties *)

(** ** Strings *)

Lemma pystr_eqb_refl (s : pystr) : PyStr.eqb s s = true.
Proof.
  induction s as [|c s IH]; simpl; [reflexivity|].
  now rewrite N.eqb_refl, IH.
Qed.

Lemma pystr_eqb_eq (s t : pystr) : PyStr.eqb s t = true <-> s = t.
Proof.
  split; [|intros ->; apply pystr_eqb_refl].
  revert t; induction s as [|c s IH]; intros [|d t]; simpl; try discriminate.
  - reflexivity.
  - intros H; apply andb_true_iff in H as [Hc Hs].
    apply N.eqb_eq in Hc; subst; f_equal; now apply IH.
Qed.

(** ** Dictionaries *)

Lemma dict_get_set_same {V} (d : list (pystr * V)) k v :
  dict_get (dict_set d k v) k = Some v.
Proof.
  induction d as [|[k' v'] d IH]; simpl.
  - now rewrite pystr_eqb_refl.
  - destruct (PyStr.eqb k' k) eqn:E; simpl; rewrite E; auto.
Qed.

Lemma dict_get_set_other {V} (d : list (pystr * V)) k k' v :
  PyStr.eqb k k' = false ->
  dict_get (dict_set d k v) k' = dict_get d k'.
Proof.
  intros Hk. induction d as [|[k0 v0] d IH]; simpl.
  - now rewrite Hk.
  - destruct (PyStr.eqb k0 k) eqn:E; simpl.
    + apply pystr_eqb_eq in E; subst k0. now rewrite Hk.
    + now rewrite IH.
Qed.

(** Lookups through the conditional assignments of [build_payload]. *)

Lemma if_truthy_same {X} o (x : X) : if_truthy o (fun _ => x) x = x.
Proof. now destruct o as [[|]|]. Qed.

Lemma get_when_same {V} o k (g : pystr -> V) d e :
  dict_get (if_truthy o (fun s => dict_set d k (g s)) e) k
  = if_truthy o (fun s => Some (g s)) (dict_get e k).
Proof. destruct o as [[|]|]; simpl; auto using dict_get_set_same. Qed.

Lemma get_when_other {V} o k k' (g : pystr -> V) d e :
  PyStr.eqb k k' = false ->
  dict_get (if_truthy o (fun s => dict_set d k (g s)) e) k'
  = if_truthy o (fun _ => dict_get d k') (dict_get e k').
Proof. intros; destruct o as [[|]|]; simpl; auto using dict_get_set_other. Qed.

Lemma get_if_same {V} (b : bool) k (v : V) d :
  dict_get (if b then dict_set d k v else d) k
  = if b then Some v else dict_get d k.
Proof. destruct b; auto using dict_get_set_same. Qed.

Lemma get_if_other {V} (b : bool) k k' (v : V) d :
  PyStr.eqb k k' = false ->
  dict_get (if b then dict_set d k v else d) k' = dict_get d k'.
Proof. intros; destruct b; auto using dict_get_set_other. Qed.

Ltac payload_lookup :=
  unfold build_payload;
  repeat first
    [ rewrite get_when_same
    | rewrite get_when_other by reflexivity
    | rewrite get_if_same
    | rewrite get_if_other by reflexivity
    | rewrite if_truthy_same ];
  try reflexivity.

(** ** What each form field of the payload is *)

Section Payload.

Variables (self : Notifier) (title : pystr).
Variables (desp short channel : option pystr) (noip : bool).
Variable openid : option pystr.

Local Abbreviation payload :=
  (build_payload self title desp short channel noip openid).

Lemma payload_title : dict_get payload k_title = Some (slice_to 32 title).
Proof. payload_lookup. Qed.

Lemma payload_desp : dict_get payload k_desp = if_truthy desp Some None.
Proof. payload_lookup. Qed.


Lemma payload_channel :
  dict_get payload k_channel
  = if_truthy channel Some (if_truthy (default_channel self) Some None).
Proof. payload_lookup. Qed.

Lemma payload_noip :
  dict_get payload k_noip = if noip then Some noip_marker else None.
Proof. payload_lookup. Qed.


End Payload.

(** ** Effects that leave a part of the state alone *)

Create HintDb keeps.

Section Frame.

Variable env : Env.
Variable X : Type.
Variable f : World -> X.

Lemma keeps_ret A (a : A) : keeps f (ret a).
Proof. intro; reflexivity. Qed.

Lemma keeps_raise A e : keeps f (@raise A e).
Proof. intro; reflexivity. Qed.

Lemma keeps_lift A (o : outcome A) : keeps f (lift o).
Proof. intro; reflexivity. Qed.

Lemma keeps_bind A B (m : M A) (k : A -> M B) :
  keeps f m -> (forall a, keeps f (k a)) -> keeps f (bind m k).
Proof.
  intros Hm Hk w. unfold bind. specialize (Hm w).
  destruct (m w) as [[a|e] w']; simpl in *.
  - now rewrite Hk.
  - assumption.
Qed.

Lemma keeps_if A (b : bool) (m1 m2 : M A) :
  keeps f m1 -> keeps f m2 -> keeps f (if b then m1 else m2).
Proof. now destruct b. Qed.

Lemma keeps_try_except A (body : M A) clauses :
  keeps f body ->
  Forall (fun c => forall e, keeps f (snd c e)) clauses ->
  keeps f (try_except body clauses).
Proof.
  intros Hb Hc w. unfold try_except. specialize (Hb w).
  destruct (body w) as [[a|e] w']; simpl in *; [assumption|].
  destruct (find _ clauses) as [c|] eqn:E; [|assumption].
  apply find_some in E as [Hin _].
  rewrite Forall_forall in Hc. now rewrite (Hc c Hin e w').
Qed.

Lemma keeps_raise_for_status r : keeps f (raise_for_status r).
Proof.
  unfold raise_for_status.
  repeat match goal with |- context [if ?b then _ else _] => destruct b end;
    intro; reflexivity.
Qed.

Lemma keeps_response_json r : keeps f (response_json r).
Proof. apply keeps_lift. Qed.

Lemma keeps_py_get v k : keeps f (py_get v k).
Proof. destruct v; intro; reflexivity. Qed.

Lemma keeps_py_getitem v k : keeps f (py_getitem v k).
Proof.
  destruct v; try (intro; reflexivity).
  simpl. destruct (dict_get d k); intro; reflexivity.
Qed.

#[local] Hint Resolve keeps_ret keeps_raise keeps_bind keeps_if keeps_try_except
  keeps_raise_for_status keeps_response_json keeps_py_get keeps_py_getitem
  : keeps.

(** From here on [f] is a part of the state that logging, reading the
    clock and allocating an object do not touch. *)
Hypothesis f_log : forall r w, f (add_log r w) = f w.
Hypothesis f_tick : forall w, f (tick w) = f w.
Hypothesis f_alloc : forall w, f (alloc w) = f w.

Lemma keeps_logger lvl text arg : keeps f (logger lvl text arg).
Proof. intro; apply f_log. Qed.

Lemma keeps_time_time : keeps f (time_time env).
Proof. intro; apply f_tick. Qed.

Lemma keeps_datetime_now : keeps f (datetime_now env).
Proof. intro; apply f_tick. Qed.

Lemma keeps_ServerChanNotifier k d : keeps f (ServerChanNotifier k d).
Proof. intro; apply f_alloc. Qed.

Lemma keeps_get_global_notifier : keeps f get_global_notifier.
Proof.
  intro w; unfold get_global_notifier.
  now destruct (_global_notifier w).
Qed.

#[local] Hint Resolve keeps_logger keeps_time_time keeps_datetime_now
  keeps_ServerChanNotifier keeps_get_global_notifier : keeps.

Lemma keeps_send_except prefix e : keeps f (send_except prefix e).
Proof. unfold send_except; auto with keeps. Qed.

#[local] Hint Resolve keeps_send_except : keeps.

(** After the request has been handed to [requests.post], nothing in
    [send] changes [f] any more. *)
Lemma send_try_frame r w :
  f (snd (send_try env r w)) = f (add_sent r w).
Proof.
  unfold send_try. unfold bind at 1. unfold requests_post.
  destruct (env_post env (sent w) r) as [resp|e]; [|reflexivity].
  match goal with |- f (snd (?m _)) = _ => assert (K : keeps f m) end.
  { repeat first
      [ apply keeps_bind; [|intro]
      | apply keeps_if
      | solve [auto with keeps] ]. }
  apply K.
Qed.

Lemma send_frame self title desp short channel noip openid timeout w :
  f (snd (send env self title desp short channel noip openid timeout w))
  = f (add_sent
         (send_request self title desp short channel noip openid timeout) w).
Proof.
  unfold send, try_except.
  rewrite <- send_try_frame.
  destruct (send_try env _ w) as [[j|e] w']; [reflexivity|].
  cbn [find fst snd].
  repeat match goal with
         | |- context [if ?b then _ else _] => destruct b
         end; try reflexivity; apply keeps_send_except.
Qed.

Lemma notify_success_frame self task t info kw w :
  f (snd (notify_success env self task t info kw w))
  = f (add_sent
         (send_request self (success_title task)
            (Some (success_desp task (strftime (env_now env (ticks w)))
                     t info))
            (kw_short kw) (kw_channel kw) (kw_noip kw) (kw_openid kw)
            (kw_timeout kw)) (tick w)).
Proof. apply send_frame. Qed.

Lemma notify_error_frame self task msg t kw w :
  f (snd (notify_error env self task msg t kw w))
  = f (add_sent
         (send_request self (error_title task)
            (Some (error_desp task (strftime (env_now env (ticks w)))
                     msg t))
            (kw_short kw) (kw_channel kw) (kw_noip kw) (kw_openid kw)
            (kw_timeout kw)) (tick w)).
Proof. apply send_frame. Qed.

End Frame.

(** ** [send]: results and failures *)

Lemma send_except_run prefix e w :
  send_except prefix e w
  = (Ok (failure (prefix ++ exc_str e)),
     add_log (mkLog ERROR prefix (ArgExc e)) w).
Proof. reflexivity. Qed.

Section SendResults.

Variable env : Env.
Variables (self : Notifier) (title : pystr).
Variables (desp short channel : option pystr) (noip : bool).
Variables (openid : option pystr) (timeout : Z).

Local Abbreviation request :=
  (send_request self title desp short channel noip openid timeout).
Local Abbreviation send_it :=
  (send env self title desp short channel noip openid timeout).

(** What the [try] body returns, [send] returns. *)
Lemma send_of_try_ok w j w' :
  send_try env request w = (Ok j, w') -> send_it w = (Ok j, w').
Proof.
  intros H. unfold send, try_except. now rewrite H.
Qed.

(** An error raised in the [try] body reaches one of the three clauses. *)
Lemma send_of_try_error w e w' :
  send_try env request w = (Raise e, w') ->
  isinstance e Exception = true ->
  exists prefix,
    In prefix [msg_network; msg_decode; msg_unknown]
    /\ send_it w = (Ok (failure (prefix ++ exc_str e)),
                    add_log (mkLog ERROR prefix (ArgExc e)) w').
Proof.
  intros H He. unfold send, try_except.
  rewrite H. cbn [find fst snd].
  destruct (isinstance e RequestException);
    [exists msg_network; simpl; auto|].
  destruct (isinstance e JSONDecodeError);
    [exists msg_decode; simpl; auto|].
  rewrite He. exists msg_unknown; simpl; auto.
Qed.

(** What [send] lets through is what the [try] body raised, and no clause
    matched it. *)
Lemma send_raises_inv w e w' :
  send_it w = (Raise e, w') ->
  send_try env request w = (Raise e, w') /\ isinstance e Exception = false.
Proof.
  unfold send, try_except.
  destruct (send_try env _ w) as [[j|e0] w0]; [discriminate|].
  cbn [find fst snd].
  destruct (isinstance e0 RequestException); [discriminate|].
  destruct (isinstance e0 JSONDecodeError); [discriminate|].
  destruct (isinstance e0 Exception) eqn:E; [discriminate|].
  intros H; inversion H; subst; auto.
Qed.

(** Everything the code of the [try] body raises by itself is an error;
    only the transport can raise something else. *)
Lemma send_try_raises_errors w e w' :
  raises_only_errors env ->
  send_try env request w = (Raise e, w') ->
  isinstance e Exception = true.
Proof.
  intros Henv. specialize (Henv (sent w) request).
  unfold send_try, bind, requests_post.
  destruct (env_post env (sent w) request) as [resp|e0];
    [|intros H; inversion H; subst; exact Henv].
  unfold raise_for_status, raise, ret.
  destruct ((400 <=? status_code resp)%Z && (status_code resp <? 500)%Z);
    [intros H; inversion H; reflexivity|].
  destruct ((500 <=? status_code resp)%Z && (status_code resp <? 600)%Z);
    [intros H; inversion H; reflexivity|].
  unfold response_json, lift.
  destruct (resp_json resp) as [result|e0];
    [|intros H; inversion H; subst; exact Henv].
  destruct result as [ | | | | | |d]; simpl;
    try (intros H; inversion H; reflexivity).
  unfold ret. destruct (py_eq_zero _).
  - destruct (dict_get d k_data) as [data|]; simpl;
      [|intros H; inversion H; reflexivity].
    destruct data as [ | | | | | |d']; simpl;
      try (intros H; inversion H; reflexivity).
    destruct (dict_get d' k_pushid); simpl;
      intros H; inversion H; reflexivity.
  - simpl. discriminate.
Qed.

(** With a transport that raises only errors, [send] always returns. *)
Lemma send_returns w :
  raises_only_errors env -> exists j w', send_it w = (Ok j, w').
Proof.
  intros Henv.
  destruct (send_try env request w) as [[j|e] w'] eqn:E.
  - exists j, w'. now apply send_of_try_ok.
  - assert (He : isinstance e Exception = true)
      by (eapply send_try_raises_errors; eauto).
    apply send_of_try_error in E as (prefix & _ & H); eauto.
Qed.

End SendResults.

(** C1.  Every error raised in the [try] body of [send] (by the transport, by
    decoding the response, or by the code that inspects the result) is
    turned into the returned mapping [{"code": -1, "message": msg}] with a
    non-empty [msg]; and no error ever leaves [send]: whatever [send] lets
    through is not an instance of [Exception].  The payload is built before
    the [try]; for strings it cannot raise. *)
Theorem send_catches_errors env self title desp short channel noip openid
    timeout w :
  (forall e w',
      send_try env
        (send_request self title desp short channel noip openid timeout) w
      = (Raise e, w') ->
      isinstance e Exception = true ->
      exists msg w'',
        send env self title desp short channel noip openid timeout w
        = (Ok (JDict [(k_code, JInt (-1)); (k_message, JStr msg)]), w'')
        /\ msg <> [])
  /\ (forall e w',
        send env self title desp short channel noip openid timeout w
        = (Raise e, w') ->
        isinstance e Exception = false).
Proof.
  split.
  - intros e w' Htry He.
    apply send_of_try_error in Htry as (prefix & Hin & Hsend); [|exact He].
    exists (prefix ++ exc_str e); eexists; split; [exact Hsend|].
    simpl in Hin.
    destruct Hin as [<-|[<-|[<-|[]]]]; discriminate.
  - intros e w' H. now apply send_raises_inv in H.
Qed.

Lemma send_catches_errors_witness :
  (exists msg w'',
      send env_refused sample_notifier (lit "hi") None None None false None 10
        initial_world
      = (Ok (JDict [(k_code, JInt (-1)); (k_message, JStr msg)]), w'')
      /\ msg <> [])
  /\ isinstance (mkExc KeyboardInterrupt []) Exception = false.
Proof.
  split.
  - eapply (proj1 (send_catches_errors env_refused sample_notifier (lit "hi")
                     None None None false None 10 initial_world)
              (mkExc ConnectionError (lit "Connection refused"))).
    + reflexivity.
    + reflexivity.
  - eapply (proj2 (send_catches_errors env_interrupted sample_notifier
                     (lit "hi") None None None false None 10 initial_world)).
    reflexivity.
Defined.

(** X7.  When the provider accepts the notification and names its push id,
    [send] logs the id and returns the parsed mapping as it is. *)
Lemma send_returns_accepted env self title desp short channel noip openid
    timeout w resp d data pushid :
  let request :=
    send_request self title desp short channel noip openid timeout in
  env_post env (sent w) request = Ok resp ->
  (status_code resp < 400 \/ 600 <= status_code resp)%Z ->
  resp_json resp = Ok (JDict d) ->
  py_eq_zero (dict_get_or_none d k_code) = true ->
  dict_get d k_data = Some (JDict data) ->
  dict_get data k_pushid = Some pushid ->
  send env self title desp short channel noip openid timeout w
  = (Ok (JDict d),
     add_log (mkLog INFO msg_pushed (ArgJson pushid)) (add_sent request w)).
Proof.
  intros request Hpost Hstatus Hjson Hcode Hdata Hpushid.
  apply send_of_try_ok.
  unfold send_try, bind, requests_post. fold request. rewrite Hpost.
  unfold raise_for_status.
  replace ((400 <=? status_code resp)%Z && (status_code resp <? 500)%Z)
    with false by (symmetry; apply andb_false_iff; lia).
  replace ((500 <=? status_code resp)%Z && (status_code resp <? 600)%Z)
    with false by (symmetry; apply andb_false_iff; lia).
  unfold ret, response_json, lift. rewrite Hjson.
  unfold py_get, ret. rewrite Hcode.
  unfold py_getitem. rewrite Hdata. unfold ret. rewrite Hpushid.
  reflexivity.
Qed.

(** C2, at a response the claim covers and the code mishandles.  The
    provider answers [{"code": 0, "message": ""}]: the notification was
    accepted, yet [send] returns the failure mapping, because building the
    log line looks up [result['data']], the [KeyError] lands in the last
    [except] clause, and the parsed mapping is dropped. *)
Theorem send_accepted_without_pushid :
  let out :=
    fst (send (env_answering (JDict body_accepted_bare)) sample_notifier
           (lit "hi") None None None false None 10 initial_world) in
  py_eq_zero (dict_get_or_none body_accepted_bare k_code) = true
  /\ out = Ok (failure (msg_unknown ++ lit "'data'"))
  /\ out <> Ok (JDict body_accepted_bare).
Proof.
  vm_compute. repeat split. discriminate.
Qed.

(** C3.  A response that arrives, is not an HTTP error, and decodes to a
    mapping whose code is not equal to 0 is returned as it is; the only
    other effect is one warning in the log, carrying the provider's
    message. *)
Theorem send_returns_provider_rejection env self title desp short channel
    noip openid timeout w resp d :
  let request :=
    send_request self title desp short channel noip openid timeout in
  env_post env (sent w) request = Ok resp ->
  (status_code resp < 400 \/ 600 <= status_code resp)%Z ->
  resp_json resp = Ok (JDict d) ->
  py_eq_zero (dict_get_or_none d k_code) = false ->
  send env self title desp short channel noip openid timeout w
  = (Ok (JDict d),
     add_log
       (mkLog WARNING msg_rejected (ArgJson (dict_get_or_none d k_message)))
       (add_sent request w)).
Proof.
  intros request Hpost Hstatus Hjson Hcode.
  apply send_of_try_ok.
  unfold send_try, bind, requests_post. fold request. rewrite Hpost.
  unfold raise_for_status.
  replace ((400 <=? status_code resp)%Z && (status_code resp <? 500)%Z)
    with false by (symmetry; apply andb_false_iff; lia).
  replace ((500 <=? status_code resp)%Z && (status_code resp <? 600)%Z)
    with false by (symmetry; apply andb_false_iff; lia).
  unfold ret, response_json, lift. rewrite Hjson.
  unfold py_get, ret. rewrite Hcode.
  reflexivity.
Qed.

Lemma send_returns_provider_rejection_witness :
  send (env_answering (JDict body_invalid_key)) sample_notifier (lit "hi")
    None None None false None 10 initial_world
  = (Ok (JDict body_invalid_key),
     add_log
       (mkLog WARNING msg_rejected (ArgJson (JStr (lit "invalid key"))))
       (add_sent
          (send_request sample_notifier (lit "hi") None None None false None
             10) initial_world)).
Proof.
  apply (@send_returns_provider_rejection
           (env_answering (JDict body_invalid_key)) sample_notifier (lit "hi")
           None None None false None 10 initial_world
           {| status_code := 200; reason := lit "OK";
              resp_url := api_url sample_notifier;
              resp_json := Ok (JDict body_invalid_key) |}
           body_invalid_key).
  - reflexivity.
  - left; simpl; lia.
  - reflexivity.
  - reflexivity.
Defined.

(** ** [send]: what is transmitted *)

(** Every call of [send] hands exactly one request to [requests.post]: the
    one built from its arguments. *)
Lemma send_transmits env self title desp short channel noip openid timeout w :
  sent (snd (send env self title desp short channel noip openid timeout w))
  = sent w
    ++ [send_request self title desp short channel noip openid timeout].
Proof. now rewrite send_frame. Qed.



(** C5.  The transmitted channel is the per-call channel when one is given
    (a non-empty string); otherwise the configured default when there is
    one; otherwise the payload has no channel field. *)
Theorem send_resolves_channel env self title desp short channel noip openid
    timeout w :
  exists req,
    sent (snd (send env self title desp short channel noip openid timeout w))
    = sent w ++ [req]
    /\ (forall c, channel = Some c -> c <> [] ->
          dict_get (req_data req) k_channel = Some c)
    /\ (forall d, opt_truthy channel = false ->
          default_channel self = Some d -> d <> [] ->
          dict_get (req_data req) k_channel = Some d)
    /\ (opt_truthy channel = false ->
        opt_truthy (default_channel self) = false ->
        dict_get (req_data req) k_channel = None).
Proof.
  eexists; split; [apply send_transmits|].
  cbn [req_data send_request]. rewrite payload_channel.
  repeat split.
  - intros c -> Hc. destruct c; [contradiction|reflexivity].
  - intros d Hch Hd Hne. rewrite Hd.
    destruct channel as [[|]|]; try discriminate;
      (destruct d; [contradiction|reflexivity]).
  - intros Hch Hd.
    destruct channel as [[|]|], (default_channel self) as [[|]|];
      try discriminate; reflexivity.
Qed.

Lemma send_resolves_channel_witness :
  (exists req,
      sent (snd (send env_refused sample_notifier (lit "hi") None None
                   (Some (lit "18")) false None 10 initial_world))
      = [req]
      /\ dict_get (req_data req) k_channel = Some (lit "18"))
  /\ (exists req,
        sent (snd (send env_refused sample_notifier (lit "hi") None None None
                     false None 10 initial_world))
        = [req]
        /\ dict_get (req_data req) k_channel = Some (lit "9"))
  /\ (exists req,
        sent (snd (send env_refused
                     (mkNotifier 0 (lit "KEY") None (lit "url")) (lit "hi")
                     None None None false None 10 initial_world))
        = [req]
        /\ dict_get (req_data req) k_channel = None).
Proof.
  repeat split.
  - destruct (send_resolves_channel env_refused sample_notifier (lit "hi")
                None None (Some (lit "18")) false None 10 initial_world)
      as (req & Hsent & H & _).
    exists req; split; [exact Hsent|].
    apply H; [reflexivity|discriminate].
  - destruct (send_resolves_channel env_refused sample_notifier (lit "hi")
                None None None false None 10 initial_world)
      as (req & Hsent & _ & H & _).
    exists req; split; [exact Hsent|].
    apply H; [reflexivity|reflexivity|discriminate].
  - destruct (send_resolves_channel env_refused
                (mkNotifier 0 (lit "KEY") None (lit "url")) (lit "hi")
                None None None false None 10 initial_world)
      as (req & Hsent & _ & _ & H).
    exists req; split; [exact Hsent|].
    apply H; reflexivity.
Defined.

(** C6.  With [noip] true the transmitted payload has the field [noip] with
    the value ["1"]; with [noip] false it has no such field. *)
Theorem send_noip_marker env self title desp short channel (noip : bool)
    openid timeout w :
  exists req,
    sent (snd (send env self title desp short channel noip openid timeout w))
    = sent w ++ [req]
    /\ dict_get (req_data req) k_noip
       = if noip then Some (lit "1") else None.
Proof.
  eexists; split; [apply send_transmits|].
  cbn [req_data send_request]. now rewrite payload_noip.
Qed.


(** ** The templates *)

Lemma success_desp_truthy task now t info :
  truthy (success_desp task now t info) = true.
Proof.
  unfold success_desp. destruct t, info as [[|]|]; reflexivity.
Qed.

Lemma error_desp_truthy task now msg t :
  truthy (error_desp task now msg t) = true.
Proof. unfold error_desp. destruct t; reflexivity. Qed.


Section TemplateResults.

Variable env : Env.
Hypothesis Henv : raises_only_errors env.

Lemma notify_success_returns self task t info kw w :
  exists j w',
    notify_success env self task t info kw w = (Ok j, w')
    /\ sent w'
       = sent w
         ++ [send_request self (success_title task)
               (Some (success_desp task (strftime (env_now env (ticks w)))
                        t info))
               (kw_short kw) (kw_channel kw) (kw_noip kw) (kw_openid kw)
               (kw_timeout kw)].
Proof.
  pose proof (notify_success_frame env sent
                (fun _ _ => eq_refl) self task t info kw w) as Hs.
  unfold notify_success, bind, datetime_now, send_kw in *.
  edestruct send_returns as (j & w' & H); [exact Henv|].
  rewrite H in *. exists j, w'. split; [reflexivity|exact Hs].
Qed.

Lemma notify_error_returns self task msg t kw w :
  exists j w',
    notify_error env self task msg t kw w = (Ok j, w')
    /\ sent w'
       = sent w
         ++ [send_request self (error_title task)
               (Some (error_desp task (strftime (env_now env (ticks w)))
                        msg t))
               (kw_short kw) (kw_channel kw) (kw_noip kw) (kw_openid kw)
               (kw_timeout kw)].
Proof.
  pose proof (notify_error_frame env sent
                (fun _ _ => eq_refl) self task msg t kw w) as Hs.
  unfold notify_error, bind, datetime_now, send_kw in *.
  edestruct send_returns as (j & w' & H); [exact Henv|].
  rewrite H in *. exists j, w'. split; [reflexivity|exact Hs].
Qed.

End TemplateResults.

(** C7.  [notify_completion] with [success=True] and no message is
    [notify_success] with the same task name and execution time and no
    additional info: from the same state (hence at the same clock reading)
    the two do the same, and the request they transmit carries the success
    title and the success body without the line of additional info.  With
    [success=False] and no message it is [notify_error] with the placeholder
    ["未知错误"] as error message and the same execution time. *)
Theorem notify_completion_dispatches env self task_name execution_time kw :
  notify_completion env self task_name true execution_time None kw
  = notify_success env self task_name execution_time None kw
  /\ notify_completion env self task_name false execution_time None kw
     = notify_error env self task_name (lit "未知错误") execution_time kw
  /\ (forall w, exists req,
        sent (snd (notify_completion env self task_name true execution_time
                     None kw w))
        = sent w ++ [req]
        /\ dict_get (req_data req) k_title
           = Some (firstn 32 (success_title task_name))
        /\ dict_get (req_data req) k_desp
           = Some (success_desp task_name (strftime (env_now env (ticks w)))
                     execution_time None))
  /\ (forall w, exists req,
        sent (snd (notify_completion env self task_name false execution_time
                     None kw w))
        = sent w ++ [req]
        /\ dict_get (req_data req) k_title
           = Some (firstn 32 (error_title task_name))
        /\ dict_get (req_data req) k_desp
           = Some (error_desp task_name (strftime (env_now env (ticks w)))
                     (lit "未知错误") execution_time)).
Proof.
  split; [reflexivity|]. split; [reflexivity|]. split; intros w.
  - eexists. split.
    + cbn [notify_completion]. rewrite notify_success_frame by reflexivity.
      reflexivity.
    + cbn [req_data send_request]. rewrite payload_title, payload_desp.
      split; [reflexivity|].
      cbn [if_truthy]. now rewrite success_desp_truthy.
  - eexists. split.
    + cbn [notify_completion]. rewrite notify_error_frame by reflexivity.
      reflexivity.
    + cbn [req_data send_request]. rewrite payload_title, payload_desp.
      split; [reflexivity|].
      cbn [if_truthy]. now rewrite error_desp_truthy.
Qed.

(** ** The decorator *)


Lemma env_refused_raises_only_errors : raises_only_errors env_refused.
Proof. intros hist req. reflexivity. Qed.



(** ** The module-level notifier *)

Section Global.

Variable env : Env.

(** Only [init_global_notifier] assigns [_global_notifier]. *)
Lemma exec_keeps_global c w :
  is_init c = false ->
  _global_notifier (exec env c w) = _global_notifier w.
Proof.
  destruct c; intros Hc; try discriminate; cbn [exec].
  - reflexivity.
  - now rewrite send_frame.
  - now rewrite notify_success_frame.
  - now rewrite notify_error_frame.
  - destruct success; cbn [notify_completion].
    + now rewrite notify_success_frame.
    + now rewrite notify_error_frame.
  - unfold quick_notify, bind, ServerChanNotifier.
    now rewrite send_frame.
  - apply keeps_get_global_notifier.
Qed.

Lemma run_keeps_global cs w :
  existsb is_init cs = false ->
  _global_notifier (run env cs w) = _global_notifier w.
Proof.
  revert w. induction cs as [|c cs IH]; intros w H; [reflexivity|].
  cbn [existsb] in H. apply orb_false_iff in H as [Hc Hcs].
  cbn [run fold_left]. fold (run env cs (exec env c w)).
  rewrite IH by assumption. now apply exec_keeps_global.
Qed.

(** Once assigned, [_global_notifier] is never [None] again. *)
Lemma exec_stays_initialised c w :
  _global_notifier w <> None -> _global_notifier (exec env c w) <> None.
Proof.
  intros Hw. destruct (is_init c) eqn:Hc.
  - destruct c; discriminate.
  - now rewrite exec_keeps_global.
Qed.

Lemma run_initialised cs w :
  _global_notifier w <> None \/ existsb is_init cs = true ->
  _global_notifier (run env cs w) <> None.
Proof.
  revert w. induction cs as [|c cs IH]; intros w H.
  - destruct H as [H|H]; [exact H|discriminate].
  - cbn [run fold_left]. fold (run env cs (exec env c w)).
    apply IH. destruct H as [H|H].
    + left. now apply exec_stays_initialised.
    + cbn [existsb] in H. apply orb_true_iff in H as [H|H]; [|now right].
      left. destruct c; discriminate.
Qed.

End Global.

(** C9.  In a program that starts from the freshly imported module and makes
    any calls into it, [get_global_notifier] raises, and what it raises is
    the [ValueError], exactly when no call of [init_global_notifier] came
    before.  After [init_global_notifier] has returned an instance, every
    later [get_global_notifier], however many calls other than a new
    initialisation lie in between, returns that instance and changes
    nothing. *)
Theorem get_global_notifier_after_init env :
  (forall cs,
      let w := run env cs initial_world in
      ((exists e, fst (get_global_notifier w) = Raise e)
       <-> existsb is_init cs = false)
      /\ (existsb is_init cs = false ->
          get_global_notifier w
          = (Raise (mkExc ValueError msg_uninitialised), w)))
  /\ (forall w0 sendkey default_channel n w1 cs,
        init_global_notifier sendkey default_channel w0 = (Ok n, w1) ->
        existsb is_init cs = false ->
        let w := run env cs w1 in
        get_global_notifier w = (Ok n, w)
        /\ get_global_notifier (snd (get_global_notifier w)) = (Ok n, w)).
Proof.
  split.
  - intros cs w. split; [split|].
    + intros [e He].
      destruct (existsb is_init cs) eqn:Hcs; [|reflexivity].
      exfalso. apply (@run_initialised env cs initial_world); [now right|].
      fold w. unfold get_global_notifier in He.
      destruct (_global_notifier w); [discriminate|reflexivity].
    + intros Hcs. unfold get_global_notifier. subst w.
      rewrite run_keeps_global by assumption. cbn. eauto.
    + intros Hcs. unfold get_global_notifier. subst w.
      now rewrite run_keeps_global by assumption.
  - intros w0 sendkey default_channel n w1 cs Hinit Hcs w.
    assert (Hg : _global_notifier w = Some n).
    { subst w. rewrite run_keeps_global by assumption.
      unfold init_global_notifier, bind, ServerChanNotifier, set_global, ret
        in Hinit.
      inversion Hinit; subst. reflexivity. }
    unfold get_global_notifier. rewrite Hg. cbn [snd]. rewrite Hg.
    split; reflexivity.
Qed.

Lemma get_global_notifier_after_init_witness :
  let n := mkNotifier 0 (lit "KEY") None (lit "https://sctapi.ftqq.com/KEY.send") in
  let w1 := store_global n (alloc initial_world) in
  let w := run env_refused
             [CallGet; CallSend n (lit "hi") None None None false None 10;
              CallGet] w1 in
  get_global_notifier (run env_refused [CallGet] initial_world)
  = (Raise (mkExc ValueError msg_uninitialised),
     run env_refused [CallGet] initial_world)
  /\ get_global_notifier w = (Ok n, w)
  /\ get_global_notifier (snd (get_global_notifier w)) = (Ok n, w).
Proof.
  intros n w1 w. split.
  - apply (proj2 (proj1 (get_global_notifier_after_init env_refused)
                    [CallGet])).
    reflexivity.
  - apply (proj2 (get_global_notifier_after_init env_refused) initial_world
             (lit "KEY") None n w1
             [CallGet; CallSend n (lit "hi") None None None false None 10;
              CallGet]).
    + reflexivity.
    + reflexivity.
Defined.

(* ================================================================= *)
(** * Further properties of the module *)

(** ** Construction *)

(** X1.  Constructing a notifier touches neither the network nor the log,
    and the endpoint it computes determines the key: two notifiers with the
    same endpoint were built from the same key. *)
Theorem ServerChanNotifier_endpoint k1 d1 w1 n1 w1' k2 d2 w2 n2 w2' :
  ServerChanNotifier k1 d1 w1 = (Ok n1, w1') ->
  ServerChanNotifier k2 d2 w2 = (Ok n2, w2') ->
  sent w1' = sent w1 /\ log w1' = log w1
  /\ api_url n1 = endpoint k1
  /\ (api_url n1 = api_url n2 -> k1 = k2).
Proof.
  unfold ServerChanNotifier, endpoint. intros H1 H2.
  assert (E1 : w1' = alloc w1) by congruence.
  assert (E2 : api_url n1 = lit "https://sctapi.ftqq.com/" ++ k1 ++ lit ".send")
    by (assert (E : Ok n1 = Ok _) by exact (eq_sym (f_equal fst H1));
        injection E as ->; reflexivity).
  assert (E3 : api_url n2 = lit "https://sctapi.ftqq.com/" ++ k2 ++ lit ".send")
    by (assert (E : Ok n2 = Ok _) by exact (eq_sym (f_equal fst H2));
        injection E as ->; reflexivity).
  subst w1'. repeat split; [exact E2|].
  rewrite E2, E3. intros H.
  apply (app_inv_head (lit "https://sctapi.ftqq.com/")) in H.
  now apply app_inv_tail in H.
Qed.

Lemma ServerChanNotifier_endpoint_witness :
  api_url sample_notifier = endpoint (lit "KEY")
  /\ (api_url sample_notifier = api_url sample_notifier ->
      lit "KEY" = lit "KEY").
Proof.
  destruct (@ServerChanNotifier_endpoint (lit "KEY") (Some (lit "9"))
              initial_world sample_notifier (alloc initial_world)
              (lit "KEY") (Some (lit "9")) initial_world sample_notifier
              (alloc initial_world) eq_refl eq_refl)
    as (_ & _ & Hurl & Hinj).
  split; [exact Hurl|exact Hinj].
Defined.

(** ** More on [send] *)

(** X2.  Whatever the outcome, one call of [send] hands exactly one request
    to the transport (to the endpoint of the notifier, with the payload, the
    given timeout, the fixed [User-Agent] and no proxies) and neither reads
    the clock, nor creates an object, nor touches [_global_notifier]. *)
Theorem send_posts_once env self title desp short channel noip openid timeout
    w :
  let w' :=
    snd (send env self title desp short channel noip openid timeout w) in
  sent w'
  = sent w
    ++ [{| req_url := api_url self;
           req_data :=
             build_payload self title desp short channel noip openid;
           req_timeout := timeout;
           req_headers := user_agent;
           req_proxies := [] |}]
  /\ ticks w' = ticks w
  /\ next_id w' = next_id w
  /\ _global_notifier w' = _global_notifier w.
Proof.
  cbn zeta. repeat split; now rewrite send_frame.
Qed.

(** X8.  The payload is the title followed by those optional fields that
    were given a non-empty value, in the order desp, short, channel, noip,
    openid; desp and openid go out whole.  Hence its keys are among the six
    fields of the form and none occurs twice. *)
Theorem build_payload_shape self title desp short channel noip openid :
  let payload := build_payload self title desp short channel noip openid in
  payload
  = [(k_title, firstn 32 title)]
    ++ if_truthy desp (fun d => [(k_desp, d)]) []
    ++ if_truthy short (fun s => [(k_short, firstn 64 s)]) []
    ++ if_truthy channel (fun c => [(k_channel, c)])
         (if_truthy (default_channel self) (fun d => [(k_channel, d)]) [])
    ++ (if noip then [(k_noip, lit "1")] else [])
    ++ if_truthy openid (fun o => [(k_openid, o)]) []
  /\ map fst payload = filter (has_key payload) payload_keys
  /\ NoDup (map fst payload).
Proof.
  intros payload.
  assert (H : payload
              = [(k_title, firstn 32 title)]
                ++ if_truthy desp (fun d => [(k_desp, d)]) []
                ++ if_truthy short (fun s => [(k_short, firstn 64 s)]) []
                ++ if_truthy channel (fun c => [(k_channel, c)])
                     (if_truthy (default_channel self)
                        (fun d => [(k_channel, d)]) [])
                ++ (if noip then [(k_noip, lit "1")] else [])
                ++ if_truthy openid (fun o => [(k_openid, o)]) []
              /\ map fst payload = filter (has_key payload) payload_keys).
  { subst payload. unfold build_payload.
    destruct desp as [[|]|], short as [[|]|], channel as [[|]|],
      (default_channel self) as [[|]|], noip, openid as [[|]|];
      split; reflexivity. }
  destruct H as [Hshape Hkeys].
  split; [exact Hshape|]. split; [exact Hkeys|].
  rewrite Hkeys. apply NoDup_filter.
  repeat constructor; simpl; intuition discriminate.
Qed.

(** ** More on the templates *)

(** X9.  The templates pass their title through the 32-character cut of
    [send]: for a task name of at most 25 characters the whole title is
    transmitted, while for one of 30 characters or more only the mark and
    the first 30 characters of the name are left, and the words that tell
    success from failure are gone. *)
Theorem notify_title_cut env self task_name execution_time kw w :
  (forall info, exists req,
      sent (snd (notify_success env self task_name execution_time info kw w))
      = sent w ++ [req]
      /\ (List.length task_name <= 25 ->
          dict_get (req_data req) k_title
          = Some (lit "✅ " ++ task_name ++ lit " 执行成功"))
      /\ (30 <= List.length task_name ->
          dict_get (req_data req) k_title
          = Some (lit "✅ " ++ firstn 30 task_name)))
  /\ (forall msg, exists req,
        sent (snd (notify_error env self task_name msg execution_time kw w))
        = sent w ++ [req]
        /\ (List.length task_name <= 25 ->
            dict_get (req_data req) k_title
            = Some (lit "❌ " ++ task_name ++ lit " 执行失败"))
        /\ (30 <= List.length task_name ->
            dict_get (req_data req) k_title
            = Some (lit "❌ " ++ firstn 30 task_name))).
Proof.
  assert (Hcut : forall a b (suffix : pystr),
             30 <= List.length task_name ->
             firstn 32 (a :: b :: task_name ++ suffix)
             = a :: b :: firstn 30 task_name).
  { intros a b suffix Hlen.
    change (firstn 32 (a :: b :: task_name ++ suffix))
      with (a :: b :: firstn 30 (task_name ++ suffix)).
    do 2 f_equal. rewrite firstn_app.
    replace (30 - List.length task_name) with 0 by lia.
    apply app_nil_r. }
  split; intros x; eexists; (split; [|split]).
  - rewrite notify_success_frame by reflexivity. reflexivity.
  - intros Hlen. cbn [req_data send_request]. rewrite payload_title.
    unfold slice_to, success_title. f_equal. apply firstn_all2.
    rewrite !length_app. change (List.length (lit "✅ ")) with 2.
    change (List.length (lit " 执行成功")) with 5. lia.
  - intros Hlen. cbn [req_data send_request]. rewrite payload_title.
    f_equal. now apply Hcut.
  - rewrite notify_error_frame by reflexivity. reflexivity.
  - intros Hlen. cbn [req_data send_request]. rewrite payload_title.
    unfold slice_to, error_title. f_equal. apply firstn_all2.
    rewrite !length_app. change (List.length (lit "❌ ")) with 2.
    change (List.length (lit " 执行失败")) with 5. lia.
  - intros Hlen. cbn [req_data send_request]. rewrite payload_title.
    f_equal. now apply Hcut.
Qed.

Lemma notify_title_cut_witness :
  exists req,
    sent (snd (notify_success env_refused sample_notifier (lit "backup") None
                 None no_kwargs initial_world))
    = [req]
    /\ dict_get (req_data req) k_title = Some (lit "✅ backup 执行成功").
Proof.
  destruct (proj1 (notify_title_cut env_refused sample_notifier (lit "backup")
                     None no_kwargs initial_world) None)
    as (req & Hsent & Hshort & _).
  exists req. split; [exact Hsent|].
  apply Hshort. vm_compute. lia.
Defined.

(** X10.  For [notify_completion] an empty message is no message: on
    success no line of details is added, on failure the placeholder is
    reported.  A message that is not empty is, on failure, the error message
    reported. *)
Theorem notify_completion_message env self task_name success execution_time
    message kw :
  (opt_truthy message = false ->
   notify_completion env self task_name success execution_time message kw
   = notify_completion env self task_name success execution_time None kw)
  /\ (forall m, message = Some m -> m <> [] ->
      notify_completion env self task_name false execution_time message kw
      = notify_error env self task_name m execution_time kw).
Proof.
  split.
  - destruct message as [[|c m]|]; try discriminate; intros _;
      destruct success; reflexivity.
  - intros m -> Hm. destruct m; [contradiction|reflexivity].
Qed.

Lemma notify_completion_message_witness :
  notify_completion env_refused sample_notifier (lit "job") false None
    (Some []) no_kwargs
  = notify_completion env_refused sample_notifier (lit "job") false None None
      no_kwargs
  /\ notify_completion env_refused sample_notifier (lit "job") false None
       (Some (lit "disk full")) no_kwargs
     = notify_error env_refused sample_notifier (lit "job") (lit "disk full")
         None no_kwargs.
Proof.
  split.
  - apply (proj1 (notify_completion_message env_refused sample_notifier
                    (lit "job") false None (Some []) no_kwargs)).
    reflexivity.
  - apply (proj2 (notify_completion_message env_refused sample_notifier
                    (lit "job") false None (Some (lit "disk full"))
                    no_kwargs) (lit "disk full")).
    + reflexivity.
    + discriminate.
Defined.

(** ** More on the outcomes of [send] *)

Lemma raise_for_status_ok resp w :
  (status_code resp < 400 \/ 600 <= status_code resp)%Z ->
  raise_for_status resp w = (Ok tt, w).
Proof.
  intros H. unfold raise_for_status.
  replace ((400 <=? status_code resp)%Z && (status_code resp <? 500)%Z)
    with false by (symmetry; apply andb_false_iff; lia).
  replace ((500 <=? status_code resp)%Z && (status_code resp <? 600)%Z)
    with false by (symmetry; apply andb_false_iff; lia).
  reflexivity.
Qed.

Lemma raise_for_status_http_error resp w :
  (400 <= status_code resp < 600)%Z ->
  exists kind,
    raise_for_status resp w
    = (Raise (mkExc HTTPError
                (decimal (Z.to_N (status_code resp)) ++ kind ++ reason resp
                 ++ lit " for url: " ++ resp_url resp)), w).
Proof.
  intros H. unfold raise_for_status.
  destruct ((400 <=? status_code resp)%Z && (status_code resp <? 500)%Z)
    eqn:E4; [eexists; reflexivity|].
  replace ((500 <=? status_code resp)%Z && (status_code resp <? 600)%Z)
    with true; [eexists; reflexivity|].
  symmetry. apply andb_true_iff. apply andb_false_iff in E4. lia.
Qed.

(** The [try] body logs once when it returns, and then below [ERROR]; it
    logs nothing when it raises.  What it returns is the decoded body, and
    that is a mapping. *)
Lemma send_try_log env r w :
  match send_try env r w with
  | (Ok j, w') =>
    exists d resp rec,
      j = JDict d
      /\ env_post env (sent w) r = Ok resp
      /\ resp_json resp = Ok j
      /\ log_level_of rec <> ERROR
      /\ log w' = log w ++ [rec]
  | (Raise e, w') => log w' = log w
  end.
Proof.
  unfold send_try, bind, requests_post.
  destruct (env_post env (sent w) r) as [resp|e] eqn:Hpost; [|reflexivity].
  unfold raise_for_status, raise, ret.
  destruct ((400 <=? status_code resp)%Z && (status_code resp <? 500)%Z);
    [reflexivity|].
  destruct ((500 <=? status_code resp)%Z && (status_code resp <? 600)%Z);
    [reflexivity|].
  unfold response_json, lift.
  destruct (resp_json resp) as [result|e] eqn:Hjson; [|reflexivity].
  destruct result as [ | | | | | |d]; try reflexivity.
  cbn [py_get]. unfold ret.
  destruct (py_eq_zero (dict_get_or_none d k_code)).
  - unfold py_getitem at 1.
    destruct (dict_get d k_data) as [data|]; [|reflexivity].
    unfold ret.
    destruct data as [ | | | | | |d']; try reflexivity.
    unfold py_getitem.
    destruct (dict_get d' k_pushid) as [pushid|]; [|reflexivity].
    exists d, resp, (mkLog INFO msg_pushed (ArgJson pushid)).
    repeat split; [exact Hjson|discriminate].
  - exists d, resp,
      (mkLog WARNING msg_rejected (ArgJson (dict_get_or_none d k_message))).
    repeat split; [exact Hjson|discriminate].
Qed.

(** X3.  When [send] returns, it returns a mapping and has written exactly
    one record to the log.  The record is an [ERROR] exactly when the [try]
    body raised, and the result is then the failure mapping an [except]
    clause built from the exception; otherwise the record is an [INFO] or a
    [WARNING], the [try] body returned, and the result is the decoded body
    of the response (also when that body looks like a failure mapping).
    When [send] lets something through, that is no error, and nothing was
    logged. *)
Theorem send_result_and_log env self title desp short channel noip openid
    timeout w :
  let request :=
    send_request self title desp short channel noip openid timeout in
  match send env self title desp short channel noip openid timeout w with
  | (Ok j, w') =>
    (exists d, j = JDict d)
    /\ exists rec,
         log w' = log w ++ [rec]
         /\ ((log_level_of rec = ERROR
              /\ exists e w0 prefix,
                   send_try env request w = (Raise e, w0)
                   /\ j = failure (prefix ++ exc_str e))
             \/ (log_level_of rec <> ERROR
                 /\ exists resp w0,
                      send_try env request w = (Ok j, w0)
                      /\ env_post env (sent w) request = Ok resp
                      /\ resp_json resp = Ok j))
  | (Raise e, w') => log w' = log w /\ isinstance e Exception = false
  end.
Proof.
  intros request.
  pose proof (send_try_log env request w) as Htry.
  unfold send, try_except. fold request.
  destruct (send_try env request w) as [[j|e] w0] eqn:Etry.
  - destruct Htry as (d & resp & rec & -> & Hpost & Hjson & Hlvl & Hlog).
    split; [eauto|]. exists rec. split; [exact Hlog|].
    right. split; [exact Hlvl|]. exists resp, w0. auto.
  - cbn [find fst snd].
    assert (Hclause : forall prefix,
               let '(out, w') := send_except prefix e w0 in
               match out with
               | Ok j =>
                 (exists d, j = JDict d)
                 /\ exists rec,
                      log w' = log w ++ [rec]
                      /\ ((log_level_of rec = ERROR
                           /\ exists e1 w1 prefix1,
                                (Raise e, w0) = (@Raise json e1, w1)
                                /\ j = failure (prefix1 ++ exc_str e1))
                          \/ (log_level_of rec <> ERROR
                              /\ exists resp w1,
                                   (Raise e, w0) = (Ok j, w1)
                                   /\ env_post env (sent w) request = Ok resp
                                   /\ resp_json resp = Ok j))
               | Raise _ => False
               end).
    { intros prefix. rewrite send_except_run.
      split; [unfold failure; eauto|].
      exists (mkLog ERROR prefix (ArgExc e)). cbn [log add_log].
      rewrite Htry. split; [reflexivity|].
      left. split; [reflexivity|]. exists e, w0, prefix. auto. }
    destruct (isinstance e RequestException);
      [exact (Hclause msg_network)|].
    destruct (isinstance e JSONDecodeError);
      [exact (Hclause msg_decode)|].
    destruct (isinstance e Exception) eqn:He;
      [exact (Hclause msg_unknown)|].
    split; [exact Htry|exact He].
Qed.

(** Which clause of [send] takes an exception of the [try] body. *)
Lemma send_clause env self title desp short channel noip openid timeout w e
    w' :
  send_try env
    (send_request self title desp short channel noip openid timeout) w
  = (Raise e, w') ->
  send env self title desp short channel noip openid timeout w
  = if isinstance e RequestException then send_except msg_network e w'
    else if isinstance e JSONDecodeError then send_except msg_decode e w'
    else if isinstance e Exception then send_except msg_unknown e w'
    else (Raise e, w').
Proof.
  intros Htry. unfold send, try_except. rewrite Htry. cbn [find fst snd].
  destruct (isinstance e RequestException); [reflexivity|].
  destruct (isinstance e JSONDecodeError); [reflexivity|].
  destruct (isinstance e Exception); reflexivity.
Qed.

(** X4.  A response with a status from 400 to 599 is a failure whatever its
    body says: [send] returns the failure mapping with the network prefix
    and the status in the message, and the body is not looked at. *)
Theorem send_http_error_status env self title desp short channel noip openid
    timeout w resp :
  env_post env (sent w)
    (send_request self title desp short channel noip openid timeout)
  = Ok resp ->
  (400 <= status_code resp < 600)%Z ->
  exists rest w',
    send env self title desp short channel noip openid timeout w
    = (Ok (failure
             (msg_network ++ decimal (Z.to_N (status_code resp)) ++ rest)),
       w').
Proof.
  intros Hpost Hstatus.
  destruct (raise_for_status_http_error resp
              (add_sent
                 (send_request self title desp short channel noip openid
                    timeout) w) Hstatus) as [kind Hraise].
  erewrite send_clause.
  2:{ unfold send_try, bind, requests_post. rewrite Hpost, Hraise.
      reflexivity. }
  change (isinstance _ RequestException) with true. cbv iota.
  rewrite send_except_run. cbn [exc_str].
  eexists _, _. reflexivity.
Qed.

Lemma send_http_error_status_witness :
  exists rest w',
    send (env_status 401 (Ok (JDict body_accepted))) sample_notifier
      (lit "hi") None None None false None 10 initial_world
    = (Ok (failure (msg_network ++ lit "401" ++ rest)), w').
Proof.
  apply (@send_http_error_status (env_status 401 (Ok (JDict body_accepted)))
           sample_notifier (lit "hi") None None None false None 10
           initial_world
           {| status_code := 401; reason := lit "Unauthorized";
              resp_url := api_url sample_notifier;
              resp_json := Ok (JDict body_accepted) |}).
  - reflexivity.
  - simpl; lia.
Defined.

(** X5.  A body that decodes to something other than a mapping (a list, a
    string, a number, [null]) makes [send] return the failure mapping of the
    last clause: [.get] on it is an [AttributeError]. *)
Theorem send_non_mapping_body env self title desp short channel noip openid
    timeout w resp result :
  env_post env (sent w)
    (send_request self title desp short channel noip openid timeout)
  = Ok resp ->
  (status_code resp < 400 \/ 600 <= status_code resp)%Z ->
  resp_json resp = Ok result ->
  (forall d, result <> JDict d) ->
  exists w',
    send env self title desp short channel noip openid timeout w
    = (Ok (failure
             (msg_unknown ++ quote ++ type_name result ++ quote
              ++ lit " object has no attribute 'get'")), w').
Proof.
  intros Hpost Hstatus Hjson Hnot.
  assert (Htry :
            send_try env
              (send_request self title desp short channel noip openid timeout)
              w
            = (Raise (mkExc AttributeError
                        (quote ++ type_name result ++ quote
                         ++ lit " object has no attribute 'get'")),
               add_sent
                 (send_request self title desp short channel noip openid
                    timeout) w)).
  { unfold send_try, bind, requests_post. rewrite Hpost.
    rewrite raise_for_status_ok by exact Hstatus.
    unfold response_json, lift. rewrite Hjson.
    destruct result as [ | | | | | |d]; try reflexivity.
    now contradiction (Hnot d). }
  erewrite send_clause by exact Htry.
  change (isinstance _ RequestException) with false.
  change (isinstance _ JSONDecodeError) with false.
  change (isinstance _ Exception) with true. cbv iota.
  rewrite send_except_run. eexists. reflexivity.
Qed.

Lemma send_non_mapping_body_witness :
  exists w',
    send (env_answering (JList [])) sample_notifier (lit "hi") None None None
      false None 10 initial_world
    = (Ok (failure (msg_unknown ++ quote ++ lit "list" ++ quote
                    ++ lit " object has no attribute 'get'")), w').
Proof.
  apply (@send_non_mapping_body (env_answering (JList [])) sample_notifier
           (lit "hi") None None None false None 10 initial_world
           {| status_code := 200; reason := lit "OK";
              resp_url := api_url sample_notifier;
              resp_json := Ok (JList []) |} (JList [])).
  - reflexivity.
  - left; simpl; lia.
  - reflexivity.
  - discriminate.
Defined.

(** X6.  The [except] clauses are tried in the order they are written.  An
    error of the [try] body that is a [RequestException] gets the network
    prefix even when it is a [json.JSONDecodeError] as well (as the decode
    error of [requests] is); the decode prefix is for a
    [json.JSONDecodeError] that is no [RequestException]; any other error
    gets the prefix of the last clause. *)
Theorem send_error_prefix env self title desp short channel noip openid
    timeout w e w' :
  send_try env
    (send_request self title desp short channel noip openid timeout) w
  = (Raise e, w') ->
  let result :=
    fst (send env self title desp short channel noip openid timeout w) in
  (isinstance e RequestException = true ->
   result = Ok (failure (msg_network ++ exc_str e)))
  /\ (isinstance e RequestException = false ->
      isinstance e JSONDecodeError = true ->
      result = Ok (failure (msg_decode ++ exc_str e)))
  /\ (isinstance e RequestException = false ->
      isinstance e JSONDecodeError = false ->
      isinstance e Exception = true ->
      result = Ok (failure (msg_unknown ++ exc_str e))).
Proof.
  intros Htry result. subst result.
  erewrite send_clause by exact Htry.
  repeat split.
  - intros ->. reflexivity.
  - intros -> ->. reflexivity.
  - intros -> -> ->. reflexivity.
Qed.

Lemma send_error_prefix_witness :
  fst (send (env_status 200
               (Raise (mkExc RequestsJSONDecodeError (lit "Expecting value"))))
         sample_notifier (lit "hi") None None None false None 10
         initial_world)
  = Ok (failure (msg_network ++ lit "Expecting value"))
  /\ fst (send (env_status 200
                  (Raise (mkExc JSONDecodeError (lit "Expecting value"))))
            sample_notifier (lit "hi") None None None false None 10
            initial_world)
     = Ok (failure (msg_decode ++ lit "Expecting value")).
Proof.
  split.
  - eapply (proj1 (@send_error_prefix
                     (env_status 200
                        (Raise (mkExc RequestsJSONDecodeError
                                  (lit "Expecting value"))))
                     sample_notifier (lit "hi") None None None false None 10
                     initial_world _ _ eq_refl)).
    reflexivity.
  - eapply (proj1 (proj2 (@send_error_prefix
                     (env_status 200
                        (Raise (mkExc JSONDecodeError
                                  (lit "Expecting value"))))
                     sample_notifier (lit "hi") None None None false None 10
                     initial_world _ _ eq_refl))).
    + reflexivity.
    + reflexivity.
Defined.

Lemma send_returns_accepted_witness :
  send (env_answering (JDict body_accepted)) sample_notifier (lit "hi")
    None None None false None 10 initial_world
  = (Ok (JDict body_accepted),
     add_log (mkLog INFO msg_pushed (ArgJson (JStr (lit "42"))))
       (add_sent
          (send_request sample_notifier (lit "hi") None None None false None
             10) initial_world)).
Proof.
  apply (@send_returns_accepted (env_answering (JDict body_accepted))
           sample_notifier (lit "hi") None None None false None 10
           initial_world
           {| status_code := 200; reason := lit "OK";
              resp_url := api_url sample_notifier;
              resp_json := Ok (JDict body_accepted) |}
           body_accepted [(k_pushid, JStr (lit "42"))] (JStr (lit "42"))).
  - reflexivity.
  - left; simpl; lia.
  - reflexivity.
  - reflexivity.
  - reflexivity.
  - reflexivity.
Defined.

(** ** More on the decorator *)

(** With neither options nor a default channel, the payload is the title
    and the body. *)
Lemma build_payload_title_desp n title desp :
  default_channel n = None ->
  truthy desp = true ->
  build_payload n title (Some desp) None None false None
  = [(k_title, firstn 32 title); (k_desp, desp)].
Proof.
  intros Hd Ht. unfold build_payload. rewrite Hd. cbn [if_truthy].
  rewrite Ht. reflexivity.
Qed.

(** X11.  Let the transport raise nothing but errors, and let the wrapped
    callable have a [__name__].  When the callable returns, the wrapper hands
    exactly one request to the transport and returns the callable's result.
    The request goes to the endpoint of the key given to the decorator and
    has two fields only: the success title of the task name (the callable's
    own name when no task name, or an empty one, was given) and the success
    body, with the time elapsed between the two readings of [time.time()]
    around the call and the note naming the callable. *)
Theorem wrapper_notifies_success env (A R : Type) sendkey task_name
    (func : Callable A R) (args : A) w r w1 fname :
  raises_only_errors env ->
  fn_name func = Some fname ->
  fn_call func args (tick (alloc w)) = (Ok r, w1) ->
  let name := or_else task_name fname in
  let elapsed :=
    PrimFloat.sub (env_time env (ticks w1)) (env_time env (ticks w)) in
  exists w2,
    fn_call (task_notifier env sendkey task_name func) args w = (Ok r, w2)
    /\ sent w2
       = sent w1
         ++ [{| req_url := endpoint sendkey;
                req_data :=
                  [(k_title, firstn 32 (success_title name));
                   (k_desp,
                    success_desp name
                      (strftime (env_now env (S (ticks w1))))
                      (Some elapsed)
                      (Some (lit "函数 " ++ fname ++ lit " 执行成功")))];
                req_timeout := 10;
                req_headers := user_agent;
                req_proxies := [] |}]
    /\ (opt_truthy task_name = false -> name = fname).
Proof.
  intros Henv Hfname Hcall name elapsed. subst name elapsed.
  assert (Hname : resolve_task_name task_name func
                  = Ok (or_else task_name fname)).
  { unfold resolve_task_name, getattr_name. rewrite Hfname.
    destruct task_name as [[|]|]; reflexivity. }
  cbn [fn_call task_notifier].
  unfold wrapper, try_except, bind, ServerChanNotifier, time_time, lift.
  rewrite Hname, Hcall. unfold getattr_name. rewrite Hfname.
  edestruct (notify_success_returns Henv) as (j & w2 & Hn & Hs).
  rewrite Hn. exists w2. split; [reflexivity|]. split.
  - rewrite Hs. unfold send_request.
    cbn [api_url kw_short kw_channel kw_noip kw_openid kw_timeout no_kwargs].
    rewrite build_payload_title_desp
      by (reflexivity || apply success_desp_truthy).
    unfold endpoint, user_agent. reflexivity.
  - destruct task_name as [[|]|]; try discriminate; reflexivity.
Qed.

Lemma wrapper_notifies_success_witness :
  exists w2,
    fn_call (task_notifier env_refused (lit "KEY") (Some []) fn_seven) tt
      initial_world
    = (Ok 7, w2)
    /\ List.length (sent w2) = 1.
Proof.
  destruct (@wrapper_notifies_success env_refused unit nat (lit "KEY")
              (Some []) fn_seven tt initial_world 7
              (tick (alloc initial_world)) (lit "job")
              env_refused_raises_only_errors eq_refl eq_refl)
    as (w2 & Hcall & Hsent & _).
  exists w2. split; [exact Hcall|]. now rewrite Hsent.
Defined.

(** X12.  The wrapper handles errors only.  When the wrapper gets to call
    the wrapped callable (the task name resolves) and the callable raises
    something that is no instance of [Exception] (a [SystemExit], a
    [KeyboardInterrupt]), the wrapper lets it through at once: no
    notification is sent, nothing is logged, the clock is not read again. *)
Theorem wrapper_passes_non_errors env (A R : Type) sendkey task_name
    (func : Callable A R) (args : A) w name e w1 :
  resolve_task_name task_name func = Ok name ->
  fn_call func args (tick (alloc w)) = (Raise e, w1) ->
  isinstance e Exception = false ->
  fn_call (task_notifier env sendkey task_name func) args w = (Raise e, w1).
Proof.
  intros Hname Hcall He.
  cbn [fn_call task_notifier].
  unfold wrapper, try_except, bind, ServerChanNotifier, time_time, lift.
  rewrite Hname, Hcall. cbn [find fst snd]. now rewrite He.
Qed.

Lemma wrapper_passes_non_errors_witness :
  fn_call (task_notifier env_refused (lit "KEY") None fn_exit) tt
    initial_world
  = (Raise (mkExc SystemExit []), tick (alloc initial_world)).
Proof.
  apply (@wrapper_passes_non_errors env_refused unit nat (lit "KEY") None
           fn_exit tt initial_world (lit "job") (mkExc SystemExit [])
           (tick (alloc initial_world))).
  - reflexivity.
  - reflexivity.
  - reflexivity.
Defined.

(** ** More on the module-level notifier *)

Section GlobalMore.

Variable env : Env.

(** No call into the module gives an object identity back. *)
Lemma exec_next_id c w : next_id w <= next_id (exec env c w).
Proof.
  destruct c; cbn [exec].
  - cbn. lia.
  - rewrite send_frame by reflexivity. cbn. lia.
  - rewrite notify_success_frame by reflexivity. cbn. lia.
  - rewrite notify_error_frame by reflexivity. cbn. lia.
  - destruct success; cbn [notify_completion].
    + rewrite notify_success_frame by reflexivity. cbn. lia.
    + rewrite notify_error_frame by reflexivity. cbn. lia.
  - unfold quick_notify, bind, ServerChanNotifier.
    rewrite send_frame by reflexivity. cbn. lia.
  - cbn. lia.
  - rewrite keeps_get_global_notifier. lia.
Qed.

Lemma run_next_id cs w : next_id w <= next_id (run env cs w).
Proof.
  revert w. induction cs as [|c cs IH]; intros w; [apply le_n|].
  cbn [run fold_left]. fold (run env cs (exec env c w)).
  etransitivity; [apply exec_next_id|apply IH].
Qed.

End GlobalMore.

(** X14.  [init_global_notifier] does not keep an instance that is already
    there: called again, after whatever other calls, it creates a new
    instance, distinct from the earlier one, built from the new arguments,
    and from then on [get_global_notifier] returns the new one. *)
Theorem init_global_notifier_replaces env w k1 d1 n1 w1 cs k2 d2 n2 w2 :
  init_global_notifier k1 d1 w = (Ok n1, w1) ->
  init_global_notifier k2 d2 (run env cs w1) = (Ok n2, w2) ->
  obj_id n1 <> obj_id n2
  /\ sendkey n2 = k2 /\ default_channel n2 = d2
  /\ get_global_notifier w2 = (Ok n2, w2).
Proof.
  unfold init_global_notifier, bind, ServerChanNotifier, set_global, ret.
  intros H1 H2.
  assert (E1 : obj_id n1 = next_id w /\ next_id w1 = S (next_id w)).
  { assert (E : Ok n1 = Ok _) by exact (eq_sym (f_equal fst H1)).
    assert (E' : w1 = _) by exact (eq_sym (f_equal snd H1)).
    injection E as ->. rewrite E'. split; reflexivity. }
  assert (E2 : Ok n2 = Ok _) by exact (eq_sym (f_equal fst H2)).
  assert (E3 : w2 = _) by exact (eq_sym (f_equal snd H2)).
  cbn [fst snd] in E2, E3. injection E2 as ->. subst w2.
  cbn [obj_id sendkey default_channel].
  destruct E1 as [-> Hw1].
  pose proof (run_next_id env cs w1) as Hmono.
  repeat split. lia.
Qed.

Lemma init_global_notifier_replaces_witness :
  let n1 := mkNotifier 0 (lit "OLD") None (endpoint (lit "OLD")) in
  let n2 := mkNotifier 1 (lit "NEW") (Some (lit "9")) (endpoint (lit "NEW")) in
  let w2 := store_global n2 (alloc (store_global n1 (alloc initial_world))) in
  obj_id n1 <> obj_id n2
  /\ sendkey n2 = lit "NEW" /\ default_channel n2 = Some (lit "9")
  /\ get_global_notifier w2 = (Ok n2, w2).
Proof.
  intros n1 n2 w2.
  apply (@init_global_notifier_replaces env_refused initial_world
           (lit "OLD") None n1 (store_global n1 (alloc initial_world))
           [CallGet] (lit "NEW") (Some (lit "9")) n2 w2).
  - vm_compute; reflexivity.
  - vm_compute; reflexivity.
Defined.



(** ** [quick_notify] *)

(** X16.  [quick_notify] hands one request to the transport, to the endpoint
    of the given key, with the title cut to 32 characters and, unless the
    message is empty (as it is by default), the message as body; it never
    carries a channel, and it leaves [_global_notifier] alone.  With a
    transport that raises nothing but errors it always returns. *)
Theorem quick_notify_request env k title message w :
  let w' := snd (quick_notify env k title message w) in
  sent w'
  = sent w
    ++ [{| req_url := endpoint k;
           req_data :=
             (k_title, firstn 32 title)
               :: (if truthy message then [(k_desp, message)] else []);
           req_timeout := 10;
           req_headers := user_agent;
           req_proxies := [] |}]
  /\ _global_notifier w' = _global_notifier w
  /\ (raises_only_errors env ->
      exists j, quick_notify env k title message w = (Ok j, w')).
Proof.
  cbn zeta. unfold quick_notify, bind, ServerChanNotifier.
  repeat split.
  - rewrite send_transmits. cbn [sent alloc]. do 2 f_equal.
    unfold send_request, build_payload.
    cbn [api_url default_channel if_truthy]. unfold endpoint.
    destruct message; reflexivity.
  - now rewrite send_frame.
  - intros Henv.
    edestruct (@send_returns env) as (j & w' & H); [exact Henv|].
    rewrite H. now exists j.
Qed.

Lemma quick_notify_request_witness :
  exists j,
    quick_notify env_refused (lit "KEY") (lit "hi") [] initial_world
    = (Ok j,
       snd (quick_notify env_refused (lit "KEY") (lit "hi") []
              initial_world)).
Proof.
  apply (proj2 (proj2 (quick_notify_request env_refused (lit "KEY")
                         (lit "hi") [] initial_world))
           env_refused_raises_only_errors).
Defined.

(** ** The templates never raise *)

(** X13.  With a transport that raises nothing but errors, the three
    templates always return: a failure of the notification comes back as a
    result, never as an exception.  Each of them reads the clock once and
    hands one request to the transport. *)
Theorem templates_return env self task_name execution_time kw w :
  raises_only_errors env ->
  (forall info, exists j w',
      notify_success env self task_name execution_time info kw w = (Ok j, w')
      /\ ticks w' = S (ticks w)
      /\ List.length (sent w') = S (List.length (sent w)))
  /\ (forall msg, exists j w',
        notify_error env self task_name msg execution_time kw w = (Ok j, w')
        /\ ticks w' = S (ticks w)
        /\ List.length (sent w') = S (List.length (sent w)))
  /\ (forall success message, exists j w',
        notify_completion env self task_name success execution_time message
          kw w
        = (Ok j, w')
        /\ ticks w' = S (ticks w)
        /\ List.length (sent w') = S (List.length (sent w))).
Proof.
  intros Henv.
  assert (Hs : forall info, exists j w',
             notify_success env self task_name execution_time info kw w
             = (Ok j, w')
             /\ ticks w' = S (ticks w)
             /\ List.length (sent w') = S (List.length (sent w))).
  { intros info.
    destruct (notify_success_returns Henv self task_name execution_time info
                kw w) as (j & w' & Hn & Hsent).
    exists j, w'. split; [exact Hn|]. split.
    - pose proof (notify_success_frame env ticks (fun _ _ => eq_refl) self
                    task_name execution_time info kw w) as Ht.
      rewrite Hn in Ht. exact Ht.
    - rewrite Hsent, length_app. cbn [List.length]. lia. }
  assert (He : forall msg, exists j w',
             notify_error env self task_name msg execution_time kw w
             = (Ok j, w')
             /\ ticks w' = S (ticks w)
             /\ List.length (sent w') = S (List.length (sent w))).
  { intros msg.
    destruct (notify_error_returns Henv self task_name msg execution_time
                kw w) as (j & w' & Hn & Hsent).
    exists j, w'. split; [exact Hn|]. split.
    - pose proof (notify_error_frame env ticks (fun _ _ => eq_refl) self
                    task_name msg execution_time kw w) as Ht.
      rewrite Hn in Ht. exact Ht.
    - rewrite Hsent, length_app. cbn [List.length]. lia. }
  split; [exact Hs|]. split; [exact He|].
  intros [|] message; cbn [notify_completion]; [apply Hs|apply He].
Qed.

Lemma templates_return_witness :
  exists j w',
    notify_completion env_refused sample_notifier (lit "job") false None None
      no_kwargs initial_world
    = (Ok j, w')
    /\ ticks w' = 1
    /\ List.length (sent w') = 1.
Proof.
  apply (proj2 (proj2 (templates_return sample_notifier (lit "job") None
                         no_kwargs initial_world
                         env_refused_raises_only_errors)) false None).
Defined.
